(** * ENS160 gas sensor driver: a shallow embedding of [ENS160.ts]

    The driver talks to the chip through an i2c-bus handle.  Every method of
    the class is an [async] function whose body is wrapped in
    [try { ... } catch (err) { throw err; }], which rethrows unchanged, so a
    method is modelled as a computation in a history-passing error monad:
    it receives the list of bus-visible events issued so far, appends its
    own, and either returns a value or throws.

    - bytes are [Byte.byte], a [Buffer] is a [list byte];
    - JavaScript numbers that the driver only uses as integers are [Z];
    - the arguments of the compensation setters are IEEE 754 binary64
      values ([spec_float] with precision 53 and maximal exponent 1024);
    - the bus is a record of two reply functions that see the whole
      history, so any deterministic device can be plugged in. *)

From Stdlib Require Import ZArith List Bool Lia String Ascii.
From Stdlib Require Import Init.Byte.
From Stdlib Require Import Floats.SpecFloat.
From Stdlib Require Import Numbers.DecimalString.
From Stdlib Require Import QArith Qround Qpower.
Import ListNotations.

Local Open Scope Z_scope.

(** ** Register map and constants (ENS160.ts, lines 10-38) *)

Definition ENS160_I2CADDR : Z := 0x53.
Definition ENS160_PARTID : Z := 0x0160.
Definition ENS160_CMD_PARTID : Z := 0x00.
Definition ENS160_CMD_OPMODE : Z := 0x10.
Definition ENS160_CMD_COMMAND : Z := 0x12.
Definition ENS160_CMD_TEMPIN : Z := 0x13.
Definition ENS160_CMD_RHIN : Z := 0x15.
Definition ENS160_CMD_STATUS : Z := 0x20.
Definition ENS160_CMD_AQI : Z := 0x21.
Definition ENS160_CMD_TVOC : Z := 0x22.
Definition ENS160_CMD_ECO2 : Z := 0x24.
Definition ENS160_CMD_READGPR : Z := 0x48.

Definition MODE_SLEEP : Z := 0x00.
Definition MODE_IDLE : Z := 0x01.
Definition MODE_STANDARD : Z := 0x02.
Definition MODE_RESET : Z := 0xf0.
Definition VALID_MODES : list Z :=
  [MODE_SLEEP; MODE_IDLE; MODE_STANDARD; MODE_RESET].

Definition COMMAND_NOP : Z := 0x00.
Definition COMMAND_CLRGPR : Z := 0xcc.
Definition COMMAND_GETAPPVER : Z := 0x0e.

(** ** Bytes and Node buffers *)

Definition Buffer := list byte.

Definition byte_to_Z (b : byte) : Z := Z.of_N (Byte.to_N b).

(** Storing a number into a [Buffer] keeps its low eight bits. *)
Definition byte_of_Z (z : Z) : byte :=
  match Byte.of_N (Z.to_N (z mod 256)) with
  | Some b => b
  | None => x00
  end.

(** [Buffer.alloc(n)]: [n] zero bytes. *)
Definition Buffer_alloc (n : Z) : Buffer := repeat x00 (Z.to_nat n).

(** [Buffer.from([v0, v1, ...])]. *)
Definition Buffer_from_array (vs : list Z) : Buffer := map byte_of_Z vs.

Definition Buffer_length (buf : Buffer) : Z := Z.of_nat (List.length buf).

(** [buf[i]] for an index inside a buffer the driver allocated itself. *)
Definition Buffer_get (buf : Buffer) (i : nat) : Z := byte_to_Z (nth i buf x00).

(** The unsigned little-endian value of a run of bytes. *)
Fixpoint le_unsigned (bs : list byte) : Z :=
  match bs with
  | [] => 0
  | b :: rest => byte_to_Z b + 256 * le_unsigned rest
  end.

(** ** JavaScript numbers and strings used by the encoders *)

(** A JavaScript number is an IEEE 754 binary64 value. *)
Definition number := spec_float.
Definition prec : Z := 53.
Definition emax : Z := 1024.

Definition num_add : number -> number -> number := SFadd prec emax.
Definition num_mul : number -> number -> number := SFmul prec emax.

(** An integer literal that is exactly representable, such as [64.0]. *)
Definition num_of_Z (z : Z) : number := binary_normalize prec emax z 0 false.

(** The literal [273.15]: the binary64 value nearest to 27315/100, which is
    0x11126666666666 * 2^-44 (bit pattern 0x4071126666666666). *)
Definition lit_273_15 : number := S754_finite false 0x11126666666666 (-44).

(** The values [Math.ceil] can return: every one of them is an integer,
    an infinity or NaN.  Negative zero is folded into [IInt 0], which
    [toString] does not distinguish from zero. *)
Inductive integral : Type :=
| INaN
| IInfinity (negative : bool)
| IInt (z : Z).

(** [Math.ceil(x)]: the least integer not below [x]. *)
Definition Math_ceil (x : number) : integral :=
  match x with
  | S754_nan => INaN
  | S754_infinity s => IInfinity s
  | S754_zero _ => IInt 0
  | S754_finite s m e =>
      let a := cond_Zopp s (Zpos m) in
      if 0 <=? e then IInt (a * 2 ^ e)
      else IInt (- ((- a) / 2 ^ (- e)))
  end.

Definition hex_digit (d : Z) : ascii :=
  nth (Z.to_nat d) (list_ascii_of_string "0123456789abcdef") "0"%char.

(** The hexadecimal digits of a non-negative integer, most significant
    first, without leading zeros (one digit for zero). *)
Definition hex_digits (n : Z) : list ascii :=
  map (fun i => hex_digit ((n / 16 ^ Z.of_nat i) mod 16))
      (rev (seq 0 (Z.to_nat (Z.log2 n / 4 + 1)))).

(** [k.toString(16)] for a value of [Math.ceil]. *)
Definition Number_toString16 (k : integral) : string :=
  match k with
  | INaN => "NaN"
  | IInfinity false => "Infinity"
  | IInfinity true => "-Infinity"
  | IInt z =>
      if z <? 0 then String "-" (string_of_list_ascii (hex_digits (- z)))
      else string_of_list_ascii (hex_digits z)
  end.

Definition hex_value (c : ascii) : option Z :=
  let n := Z.of_nat (nat_of_ascii c) in
  if (48 <=? n) && (n <=? 57) then Some (n - 48)          (* 0-9 *)
  else if (97 <=? n) && (n <=? 102) then Some (n - 87)    (* a-f *)
  else if (65 <=? n) && (n <=? 70) then Some (n - 55)     (* A-F *)
  else None.

(** Node's hex decoder: one byte per pair of hexadecimal characters; it
    stops at the first pair that is not hexadecimal and drops an unpaired
    last character. *)
Fixpoint hex_decode (cs : list ascii) : Buffer :=
  match cs with
  | hi :: lo :: rest =>
      match hex_value hi, hex_value lo with
      | Some h, Some l => byte_of_Z (16 * h + l) :: hex_decode rest
      | _, _ => []
      end
  | _ => []
  end.

(** [Buffer.from(str, "hex")]. *)
Definition Buffer_from_hex (str : string) : Buffer :=
  hex_decode (list_ascii_of_string str).

(** [n.toString(10)] for a byte read from a buffer. *)
Definition Number_toString10 (n : Z) : string :=
  NilZero.string_of_uint (N.to_uint (Z.to_N n)).

Definition bit_char (b : bool) : ascii := if b then "1"%char else "0"%char.

(** [n.toString(2)] for a non-negative integer. *)
Definition Number_toString2 (n : Z) : string :=
  string_of_list_ascii
    (map (fun i => bit_char (Z.testbit n (Z.of_nat i)))
         (rev (seq 0 (Z.to_nat (Z.log2 n + 1))))).

(** [s.padStart(targetLength, c)] with a one-character pad. *)
Definition padStart (s : string) (targetLength : nat) (c : ascii) : string :=
  (string_of_list_ascii (repeat c (targetLength - String.length s)) ++ s)%string.

(** [s.substring(from, to)] for [from <= to]. *)
Definition substring (s : string) (from to : nat) : string :=
  String.substring from (to - from) s.

Definition digit_value (c : ascii) : option Z :=
  let n := Z.of_nat (nat_of_ascii c) in
  if (48 <=? n) && (n <=? 57) then Some (n - 48) else None.

Fixpoint parse_digits (acc : Z) (s : string) : Z :=
  match s with
  | String c rest =>
      match digit_value c with
      | Some d => parse_digits (10 * acc + d) rest
      | None => acc
      end
  | EmptyString => acc
  end.

(** [parseInt(s)] on a string without sign or blanks: the leading decimal
    digits, or [None] (NaN) when there is none. *)
Definition parseInt (s : string) : option Z :=
  match s with
  | String c _ =>
      match digit_value c with
      | Some _ => Some (parse_digits 0 s)
      | None => None
      end
  | EmptyString => None
  end.

(** ** Errors and outcomes *)

Inductive error : Type :=
| BusError (msg : string)   (* a rejected writeI2cBlock / readI2cBlock *)
| InvalidMode (mode : Z)    (* throw new Error(`Invalid mode: ${mode}`) *)
| IdentityMismatch          (* throw "Could not locate ENS160!" *)
| DeviceNotDetected         (* throw "Could not detect!" *)
| RangeError.               (* Buffer.readIntLE with a bad byteLength *)

Inductive outcome (A : Type) : Type :=
| Returned (a : A)
| Threw (e : error).
Arguments Returned {A} a.
Arguments Threw {A} e.

(** [buf.readIntLE(offset, byteLength)]: Node accepts 1 to 6 bytes that lie
    inside the buffer, and reads them as a two's complement number. *)
Definition readIntLE (buf : Buffer) (offset byteLength : Z) : outcome Z :=
  if (1 <=? byteLength) && (byteLength <=? 6) && (0 <=? offset)
     && (offset + byteLength <=? Buffer_length buf)
  then
    let u := le_unsigned (firstn (Z.to_nat byteLength)
                                 (skipn (Z.to_nat offset) buf)) in
    Returned (if u <? 2 ^ (8 * byteLength - 1) then u
              else u - 2 ^ (8 * byteLength))
  else Threw RangeError.

(** [buf.readInt8()], offset 0. *)
Definition readInt8 (buf : Buffer) : outcome Z := readIntLE buf 0 1.

(** The value [status] resolves to (ENS160.ts, lines 421-425 and 465). *)
Inductive StatusType : Type := normal | warmup | startup | invalid.

Record StatusSnapshot : Type := {
  st_opmode : bool;
  st_error : bool;
  st_status : StatusType
}.

(** ** Bus events, the bus, and the monad of driver methods *)

Inductive event : Type :=
| Sleep (ms : Z)
| WriteBlock (addr cmd length : Z) (data : Buffer)
| ReadBlock (addr cmd length : Z).

Definition history := list event.

Inductive bus_reply (A : Type) : Type :=
| Resolved (a : A)
| Rejected (msg : string).
Arguments Resolved {A} a.
Arguments Rejected {A} msg.

(** What readI2cBlock resolves to. *)
Record read_result : Type := { bytesRead : Z; buffer : Buffer }.

(** The external collaborator.  Each reply may depend on everything that
    happened on the bus before the request.  A read reply carries the number
    of bytes the transport reports and the bytes it delivered. *)
Record Bus : Type := {
  bus_write : history -> Z -> Z -> Z -> Buffer -> bus_reply unit;
  bus_read : history -> Z -> Z -> Z -> bus_reply (Z * list byte)
}.

Definition io (A : Type) : Type := history -> history * outcome A.

Definition ret {A} (a : A) : io A := fun h => (h, Returned a).
Definition throw {A} (e : error) : io A := fun h => (h, Threw e).
Definition bind {A B} (m : io A) (k : A -> io B) : io B :=
  fun h =>
    match m h with
    | (h', Returned a) => k a h'
    | (h', Threw e) => (h', Threw e)
    end.
Definition lift {A} (o : outcome A) : io A := fun h => (h, o).

Declare Scope io_scope.
Delimit Scope io_scope with io.
Notation "x <- m ;; k" := (bind m (fun x => k))
  (at level 100, m at next level, right associativity) : io_scope.
Notation "m ;; k" := (bind m (fun _ => k))
  (at level 100, right associativity) : io_scope.
Local Open Scope io_scope.

(** [await sleep(duration)]. *)
Definition sleep (duration : Z) : io unit :=
  fun h => (h ++ [Sleep duration], Returned tt).

(** The decoding part of [status], ENS160.ts lines 434-458. *)
Definition decode_status (b : Z) : StatusSnapshot :=
  let bin := padStart (Number_toString2 b) 8 "0"%char in
  let opmode := String.eqb (substring bin 0 1) "1" in
  let error := String.eqb (substring bin 1 2) "1" in
  let status :=
    match parseInt (substring bin 4 5) with
    | Some 0 => normal
    | Some 1 => warmup
    | Some 2 => startup
    | Some 3 => invalid
    | _ => invalid
    end in
  {| st_opmode := opmode; st_error := error; st_status := status |}.

Section Driver.

Variable bus : Bus.

(** [await this.bus.writeI2cBlock(addr, cmd, length, buf)]. *)
Definition writeI2cBlock (addr cmd length : Z) (buf : Buffer) : io unit :=
  fun h =>
    (h ++ [WriteBlock addr cmd length buf],
     match bus_write bus h addr cmd length buf with
     | Resolved _ => Returned tt
     | Rejected msg => Threw (BusError msg)
     end).

(** [await this.bus.readI2cBlock(addr, cmd, length, Buffer.alloc(length))]:
    the delivered bytes land in the freshly allocated buffer, whose length
    stays [length]. *)
Definition readI2cBlock (addr cmd length : Z) : io read_result :=
  fun h =>
    (h ++ [ReadBlock addr cmd length],
     match bus_read bus h addr cmd length with
     | Resolved (n, data) =>
         Returned {| bytesRead := n;
                     buffer := firstn (Z.to_nat length)
                                      (data ++ Buffer_alloc length) |}
     | Rejected msg => Threw (BusError msg)
     end).

(** ENS160.ts, lines 123-141.  The callers pass whole numbers only: the
    mode constants and the value [getMode] returned. *)
Definition setMode (mode : Z) : io bool :=
  if negb (existsb (Z.eqb mode) VALID_MODES) then throw (InvalidMode mode)
  else
    let buf := Buffer_from_array [mode] in
    writeI2cBlock ENS160_I2CADDR ENS160_CMD_OPMODE (Buffer_length buf) buf ;;
    sleep 10 ;;
    ret true.

(** ENS160.ts, lines 108-115. *)
Definition reset : io bool :=
  _ <- setMode MODE_RESET ;;
  ret true.

(** ENS160.ts, lines 148-161. *)
Definition getMode : io Z :=
  curr <- readI2cBlock ENS160_I2CADDR ENS160_CMD_OPMODE 1 ;;
  lift (readInt8 (buffer curr)).

(** ENS160.ts, lines 168-184. *)
Definition check : io bool :=
  bug <- readI2cBlock ENS160_I2CADDR ENS160_CMD_PARTID 2 ;;
  id <- lift (readIntLE (buffer bug) 0 2) ;;
  if negb (id =? ENS160_PARTID) then throw IdentityMismatch
  else ret true.

(** ENS160.ts, lines 191-210. *)
Definition clear_command : io bool :=
  writeI2cBlock ENS160_I2CADDR ENS160_CMD_COMMAND 1
                (Buffer_from_array [COMMAND_NOP]) ;;
  writeI2cBlock ENS160_I2CADDR ENS160_CMD_COMMAND 1
                (Buffer_from_array [COMMAND_CLRGPR]) ;;
  sleep 10 ;;
  ret true.

(** ENS160.ts, lines 217-229. *)
Definition read_gpr : io Buffer :=
  data <- readI2cBlock ENS160_I2CADDR ENS160_CMD_READGPR 8 ;;
  ret (buffer data).

(** ENS160.ts, lines 236-262. *)
Definition firmware_version : io string :=
  curr <- getMode ;;
  _ <- setMode MODE_IDLE ;;
  _ <- clear_command ;;
  sleep 10 ;;
  writeI2cBlock ENS160_I2CADDR ENS160_CMD_COMMAND 1
                (Buffer_from_array [COMMAND_GETAPPVER]) ;;
  gpr <- read_gpr ;;
  _ <- setMode curr ;;
  ret (Number_toString10 (Buffer_get gpr 4) ++ "." ++
       Number_toString10 (Buffer_get gpr 5) ++ "." ++
       Number_toString10 (Buffer_get gpr 6))%string.

(** ENS160.ts, lines 270-286. *)
Definition temperature_compensation (temp_c : number) : io bool :=
  let k64 := Math_ceil (num_mul (num_add temp_c lit_273_15) (num_of_Z 64)) in
  let buf := Buffer_from_hex (Number_toString16 k64) in
  writeI2cBlock ENS160_I2CADDR ENS160_CMD_TEMPIN (Buffer_length buf) buf ;;
  ret true.

(** ENS160.ts, lines 316-332. *)
Definition humidity_compensation (humidity : number) : io bool :=
  let k64 := Math_ceil (num_mul humidity (num_of_Z 512)) in
  let buf := Buffer_from_hex (Number_toString16 k64) in
  writeI2cBlock ENS160_I2CADDR ENS160_CMD_RHIN (Buffer_length buf) buf ;;
  ret true.

(** ENS160.ts, lines 361-374. *)
Definition AQI : io Z :=
  measurement <- readI2cBlock ENS160_I2CADDR ENS160_CMD_AQI 1 ;;
  lift (readIntLE (buffer measurement) 0 (bytesRead measurement)).

(** ENS160.ts, lines 381-394. *)
Definition ECO2 : io Z :=
  measurement <- readI2cBlock ENS160_I2CADDR ENS160_CMD_ECO2 2 ;;
  lift (readIntLE (buffer measurement) 0 (bytesRead measurement)).

(** ENS160.ts, lines 401-414. *)
Definition TVOC : io Z :=
  measurement <- readI2cBlock ENS160_I2CADDR ENS160_CMD_TVOC 2 ;;
  lift (readIntLE (buffer measurement) 0 (bytesRead measurement)).

(** ENS160.ts, lines 421-462. *)
Definition status : io StatusSnapshot :=
  measurement <- readI2cBlock ENS160_I2CADDR ENS160_CMD_STATUS 1 ;;
  ret (decode_status (Buffer_get (buffer measurement) 0)).

(** ENS160.ts, lines 79-101. *)
Definition init : io bool :=
  sleep 20 ;;
  _ <- reset ;;
  detected <- check ;;
  if negb detected then throw DeviceNotDetected
  else
    _ <- setMode MODE_IDLE ;;
    _ <- clear_command ;;
    _ <- setMode MODE_STANDARD ;;
    _ <- temperature_compensation (num_of_Z 25) ;;
    _ <- humidity_compensation (num_of_Z 50) ;;
    ret true.

End Driver.

(** ** The compiled build

    The JavaScript emitted from the TypeScript source ships next to it and
    comes from another revision: its [init] applies the defaults 25.5 and
    51, and its [temperature_compensation] passes the literal length 2.
    Every other method agrees with ENS160.ts. *)

(** The literal [25.5], which is 51/2. *)
Definition lit_25_5 : number := binary_normalize prec emax 51 (-1) false.

Module Compiled.
Section Driver.

Variable bus : Bus.

Definition temperature_compensation (temp_c : number) : io bool :=
  let k64 := Math_ceil (num_mul (num_add temp_c lit_273_15) (num_of_Z 64)) in
  let buf := Buffer_from_hex (Number_toString16 k64) in
  writeI2cBlock bus ENS160_I2CADDR ENS160_CMD_TEMPIN 2 buf ;;
  ret true.

Definition init : io bool :=
  sleep 20 ;;
  _ <- reset bus ;;
  detected <- check bus ;;
  if negb detected then throw DeviceNotDetected
  else
    _ <- setMode bus MODE_IDLE ;;
    _ <- clear_command bus ;;
    _ <- setMode bus MODE_STANDARD ;;
    _ <- temperature_compensation lit_25_5 ;;
    _ <- humidity_compensation bus (num_of_Z 51) ;;
    ret true.

End Driver.
End Compiled.

(** ** Reference encodings and decodings *)

(** The exact value of a finite number. *)
Definition num_value (x : number) : option Q :=
  match x with
  | S754_zero _ => Some 0%Q
  | S754_finite s m e => Some (inject_Z (cond_Zopp s (Zpos m)) * 2 ^ e)%Q
  | _ => None
  end.

(** A 16-bit value as two bytes, low byte first and high byte first. *)
Definition little_endian_16 (v : Z) : Buffer :=
  [byte_of_Z (v mod 256); byte_of_Z (v / 256)].
Definition big_endian_16 (v : Z) : Buffer :=
  [byte_of_Z (v / 256); byte_of_Z (v mod 256)].

(** The register encodings as the specification words them: the quantity
    is scaled, rounded to the nearest integer, and laid out as an unsigned
    16-bit little-endian value. *)
Definition spec_round (q : Q) : Z := Qfloor (q + (1 # 2)).
Definition spec_temperature_bytes (celsius : Q) : Buffer :=
  little_endian_16 (spec_round ((celsius + (27315 # 100)) * 64)).
Definition spec_humidity_bytes (percent : Q) : Buffer :=
  little_endian_16 (spec_round (percent * 512)).

(** The validity field as the specification words it: bits 3-2 of the
    status byte, 0 = normal, 1 = warmup, 2 = startup, 3 = invalid. *)
Definition spec_validity (b : Z) : StatusType :=
  match (b / 4) mod 4 with
  | 0 => normal
  | 1 => warmup
  | 2 => startup
  | _ => invalid
  end.

(** Steps (b) to (f) of [firmware_version], between saving the mode and
    restoring it (ENS160.ts, lines 240-252). *)
Definition firmware_query (bus : Bus) : io Buffer :=
  _ <- setMode bus MODE_IDLE ;;
  _ <- clear_command bus ;;
  sleep 10 ;;
  writeI2cBlock bus ENS160_I2CADDR ENS160_CMD_COMMAND 1
                (Buffer_from_array [COMMAND_GETAPPVER]) ;;
  read_gpr bus.

(** The string [firmware_version] builds from the register bank
    (ENS160.ts, lines 256-258). *)
Definition version_string (gpr : Buffer) : string :=
  (Number_toString10 (Buffer_get gpr 4) ++ "." ++
   Number_toString10 (Buffer_get gpr 5) ++ "." ++
   Number_toString10 (Buffer_get gpr 6))%string.

(** ** The initialization sequence as a list of steps *)

(** The bus-visible steps of a complete initialization, in order: the
    startup wait, the reset, the identity read, the switch to idle, the
    two writes of the clear-command exchange, the switch to standard, and
    the two compensation writes.  Each mode write and the clear-command
    exchange are followed by their 10 ms wait. *)
Definition init_steps_with (temperature humidity : Buffer) : list event :=
  [ Sleep 20;
    WriteBlock ENS160_I2CADDR ENS160_CMD_OPMODE 1 [xf0]; Sleep 10;
    ReadBlock ENS160_I2CADDR ENS160_CMD_PARTID 2;
    WriteBlock ENS160_I2CADDR ENS160_CMD_OPMODE 1 [x01]; Sleep 10;
    WriteBlock ENS160_I2CADDR ENS160_CMD_COMMAND 1 [x00];
    WriteBlock ENS160_I2CADDR ENS160_CMD_COMMAND 1 [xcc]; Sleep 10;
    WriteBlock ENS160_I2CADDR ENS160_CMD_OPMODE 1 [x02]; Sleep 10;
    WriteBlock ENS160_I2CADDR ENS160_CMD_TEMPIN 2 temperature;
    WriteBlock ENS160_I2CADDR ENS160_CMD_RHIN 2 humidity ].

(** With the defaults of ENS160.ts (25 and 50). *)
Definition init_steps : list event := init_steps_with [x4a; x8a] [x64; x00].

(** With the defaults of the compiled build (25.5 and 51). *)
Definition compiled_init_steps : list event :=
  init_steps_with [x4a; xaa] [x66; x00].

(** Why a step ends the sequence, if it does: the bus rejects the
    operation, or the identity read delivers something else than the part
    ID.  A wait cannot fail. *)
Definition step_failure (bus : Bus) (h : history) (step : event)
  : option error :=
  match step with
  | Sleep _ => None
  | WriteBlock addr cmd len data =>
      match bus_write bus h addr cmd len data with
      | Resolved _ => None
      | Rejected msg => Some (BusError msg)
      end
  | ReadBlock addr cmd len =>
      match bus_read bus h addr cmd len with
      | Resolved (_, data) =>
          if le_unsigned (firstn 2 (data ++ Buffer_alloc 2)) =? ENS160_PARTID
          then None else Some IdentityMismatch
      | Rejected msg => Some (BusError msg)
      end
  end.

(** Running a list of steps one after the other: each step is issued
    only when every step before it succeeded, and the first failure ends
    the run with nothing issued after the failed step. *)
Fixpoint run_steps (bus : Bus) (steps : list event) (h : history)
  : history * outcome bool :=
  match steps with
  | [] => (h, Returned true)
  | step :: rest =>
      match step_failure bus h step with
      | Some e => (h ++ [step], Threw e)
      | None => run_steps bus rest (h ++ [step])
      end
  end.

(** The bytes written to the mode register, in order. *)
Fixpoint mode_writes (steps : list event) : list Buffer :=
  match steps with
  | [] => []
  | WriteBlock _ cmd _ data :: rest =>
      if cmd =? ENS160_CMD_OPMODE then data :: mode_writes rest
      else mode_writes rest
  | _ :: rest => mode_writes rest
  end.

(** ** Simulated devices used to run the driver *)

(** The mode byte most recently written to the mode register. *)
Fixpoint last_mode (h : history) (current : byte) : byte :=
  match h with
  | [] => current
  | WriteBlock _ cmd _ [b] :: rest =>
      last_mode rest (if cmd =? ENS160_CMD_OPMODE then b else current)
  | _ :: rest => last_mode rest current
  end.

(** A healthy chip: it accepts every write, echoes the mode register
    (Standard until a mode is written), identifies itself as part 0x0160,
    reports firmware 1.4.2, the status byte 0x90, an air quality index of
    2, and the bytes 0x00, 0x80 (32768) for eCO2 and TVOC. *)
Definition healthy_read (h : history) (cmd : Z) : list byte :=
  if cmd =? ENS160_CMD_PARTID then [x60; x01]
  else if cmd =? ENS160_CMD_OPMODE then [last_mode h x02]
  else if cmd =? ENS160_CMD_READGPR then [x00; x00; x00; x00; x01; x04; x02; x00]
  else if cmd =? ENS160_CMD_STATUS then [x90]
  else if cmd =? ENS160_CMD_AQI then [x02]
  else [x00; x80].

Definition healthy_bus : Bus := {|
  bus_write := fun _ _ _ _ _ => Resolved tt;
  bus_read := fun h _ cmd length => Resolved (length, healthy_read h cmd)
|}.

(** A bus on which some other part answers at the sensor's address. *)
Definition stranger_bus : Bus := {|
  bus_write := fun _ _ _ _ _ => Resolved tt;
  bus_read := fun _ _ _ length => Resolved (length, [x00; x00])
|}.

(** A healthy chip whose general purpose registers cannot be read. *)
Definition gpr_failing_bus : Bus := {|
  bus_write := fun _ _ _ _ _ => Resolved tt;
  bus_read := fun h _ cmd length =>
    if cmd =? ENS160_CMD_READGPR then Rejected "EIO"
    else Resolved (length, healthy_read h cmd)
|}.

(** A chip that reports the reset mode 0xF0 in its mode register. *)
Definition reset_mode_bus : Bus := {|
  bus_write := fun _ _ _ _ _ => Resolved tt;
  bus_read := fun h _ cmd length =>
    if cmd =? ENS160_CMD_OPMODE then Resolved (length, [xf0])
    else Resolved (length, healthy_read h cmd)
|}.

(** ** What an operation can resolve to or throw *)

(** [ensures R E m]: whenever [m] returns, its value satisfies [R];
    whenever it throws, the error satisfies [E]. *)
Definition ensures {A} (R : A -> Prop) (E : error -> Prop) (m : io A) : Prop :=
  forall h, match snd (m h) with
            | Returned a => R a
            | Threw e => E e
            end.

Definition is_DeviceNotDetected (e : error) : bool :=
  match e with
  | DeviceNotDetected => true
  | _ => false
  end.

(** Errors other than the one [init] raises on an undetected device. *)
Definition other_error (e : error) : Prop := is_DeviceNotDetected e = false.

Definition anything {A} (a : A) : Prop := True.
Definition is_true (v : bool) : Prop := v = true.

(** ** Compensation read-back *)

Definition ENS160_CMD_T : Z := 0x30.
Definition ENS160_CMD_RH : Z := 0x32.

Definition num_sub : number -> number -> number := SFsub prec emax.
Definition num_div : number -> number -> number := SFdiv prec emax.

(** [buf.readUInt16BE(offset)]: two bytes inside the buffer, high byte
    first. *)
Definition readUInt16BE (buf : Buffer) (offset : Z) : outcome Z :=
  if (0 <=? offset) && (offset + 2 <=? Buffer_length buf)
  then Returned (256 * Buffer_get buf (Z.to_nat offset)
                 + Buffer_get buf (Z.to_nat offset + 1))
  else Threw RangeError.

(** [buf.readIntBE(offset, byteLength)]: like [readIntLE], with the most
    significant byte first. *)
Definition readIntBE (buf : Buffer) (offset byteLength : Z) : outcome Z :=
  if (1 <=? byteLength) && (byteLength <=? 6) && (0 <=? offset)
     && (offset + byteLength <=? Buffer_length buf)
  then
    let u := le_unsigned (rev (firstn (Z.to_nat byteLength)
                                      (skipn (Z.to_nat offset) buf))) in
    Returned (if u <? 2 ^ (8 * byteLength - 1) then u
              else u - 2 ^ (8 * byteLength))
  else Threw RangeError.

(** [Buffer.from(buf, 16)] on a buffer: a copy; the second argument is
    not looked at. *)
Definition Buffer_from_buffer (buf : Buffer) : Buffer := buf.

(** The integer [n] for which [n / 10] is nearest to [m * 2^e], the
    larger one on a tie. *)
Definition nearest_tenths (m : positive) (e : Z) : Z :=
  if 0 <=? e then Zpos m * 2 ^ e * 10
  else (20 * Zpos m + 2 ^ (- e)) / (2 * 2 ^ (- e)).

(** Whether [m * 2^e] reaches 10^21. *)
Definition reaches_1e21 (m : positive) (e : Z) : bool :=
  if 0 <=? e then 10 ^ 21 <=? Zpos m * 2 ^ e
  else 10 ^ 21 * 2 ^ (- e) <=? Zpos m.

(** The decimal point before the last digit, after padding a single
    digit with a zero. *)
Definition insert_point (digits : string) : string :=
  let m := if (String.length digits <=? 1)%nat then String "0" digits
           else digits in
  let k := String.length m in
  (String.substring 0 (k - 1) m ++ "." ++ String.substring (k - 1) 1 m)%string.

(** [x.toFixed(1)].  [None] stands for the values that [toFixed] hands
    to the general number-to-string conversion: NaN, the infinities, and
    magnitudes of 10^21 and more. *)
Definition Number_toFixed1 (x : number) : option string :=
  match x with
  | S754_nan => None
  | S754_infinity _ => None
  | S754_zero _ => Some "0.0"%string
  | S754_finite s m e =>
      if reaches_1e21 m e then None
      else
        let digits := insert_point (Number_toString10 (nearest_tenths m e)) in
        Some (if s then String "-" digits else digits)
  end.

(** The digits of a plain decimal numeral: the integer they spell once
    the point is dropped, the number of digits after the point and the
    number of digits overall. *)
Fixpoint parse_decimal (s : string) (seen_point : bool)
    (mant : Z) (frac : Z) (count : nat) : option (Z * Z * nat) :=
  match s with
  | EmptyString => Some (mant, frac, count)
  | String c rest =>
      if Ascii.eqb c "." then
        if seen_point then None
        else parse_decimal rest true mant frac count
      else
        match digit_value c with
        | Some d =>
            parse_decimal rest seen_point (10 * mant + d)
                          (if seen_point then frac + 1 else frac) (S count)
        | None => None
        end
  end.

(** [Number(s)] for a plain decimal numeral with an optional minus sign,
    which is what [toFixed] prints: the quotient of the spelled integer
    by the power of ten, rounded once to the nearest number.  The empty
    string is zero; anything else yields NaN here. *)
Definition Number_of_string (s : string) : number :=
  let negative := match s with String "-" _ => true | _ => false end in
  let body := match s with String "-" rest => rest | _ => s end in
  match s with
  | EmptyString => S754_zero false
  | _ =>
      match parse_decimal body false 0 0 0 with
      | Some (mant, frac, S _) =>
          match mant with
          | Zpos p =>
              num_div (S754_finite negative p 0)
                      (S754_finite false (Z.to_pos (10 ^ frac)) 0)
          | _ => S754_zero negative
          end
      | _ => S754_nan
      end
  end.

(** [Number(x.toFixed(1))].  Where [toFixed] falls back on the general
    conversion, converting the string back gives [x] again. *)
Definition Number_of_toFixed1 (x : number) : number :=
  match Number_toFixed1 x with
  | Some s => Number_of_string s
  | None => x
  end.

(** [parseInt(s)] on what [toFixed] prints, as a number: the integer
    before the point with its sign, NaN when no digit starts it. *)
Definition parseInt_number (s : string) : number :=
  let negative := match s with String "-" _ => true | _ => false end in
  let body := match s with String "-" rest => rest | _ => s end in
  match parseInt body with
  | Some (Zpos p) => num_of_Z (if negative then Zneg p else Zpos p)
  | Some _ => S754_zero negative
  | None => S754_nan
  end.

(** The number a decimal literal with one digit after the point denotes:
    [n / 10] rounded to the nearest number. *)
Definition num_of_tenths (n : Z) : number :=
  num_div (num_of_Z n) (num_of_Z 10).

(** The decoding parts of the two getters (ENS160.ts, lines 302-304 and
    348-350). *)
Definition decode_temperature (be : Z) : number :=
  Number_of_toFixed1 (num_sub (num_div (num_of_Z be) (num_of_Z 64)) lit_273_15).

Definition decode_humidity (be : Z) : number :=
  Number_of_toFixed1 (num_div (num_of_Z be) (num_of_Z 512)).

Section Readback.

Variable bus : Bus.

(** ENS160.ts, lines 293-308. *)
Definition get_temperature_compensation : io number :=
  measurement <- readI2cBlock bus ENS160_I2CADDR ENS160_CMD_T 2 ;;
  be <- lift (readUInt16BE (Buffer_from_buffer (buffer measurement)) 0) ;;
  ret (decode_temperature be).

(** ENS160.ts, lines 339-354. *)
Definition get_humidity_compensation : io number :=
  measurement <- readI2cBlock bus ENS160_I2CADDR ENS160_CMD_RH 2 ;;
  be <- lift (readUInt16BE (Buffer_from_buffer (buffer measurement)) 0) ;;
  ret (decode_humidity be).

End Readback.

(** The getters of the compiled build read a signed value of as many
    bytes as the transport reports and keep the integer part of the
    printed number.  The value they print is below 2^47 / 64 in
    magnitude, so [Number_toFixed1] could only answer [None] for NaN or
    an infinity, whose strings [parseInt] turns into NaN. *)
Module CompiledReadback.
Section Readback.

Variable bus : Bus.

Definition get_temperature_compensation : io number :=
  measurement <- readI2cBlock bus ENS160_I2CADDR ENS160_CMD_T 2 ;;
  be <- lift (readIntBE (buffer measurement) 0 (bytesRead measurement)) ;;
  ret (match Number_toFixed1
               (num_sub (num_div (num_of_Z be) (num_of_Z 64)) lit_273_15) with
       | Some s => parseInt_number s
       | None => S754_nan
       end).

Definition get_humidity_compensation : io number :=
  measurement <- readI2cBlock bus ENS160_I2CADDR ENS160_CMD_RH 2 ;;
  be <- lift (readIntBE (buffer measurement) 0 (bytesRead measurement)) ;;
  ret (match Number_toFixed1 (num_div (num_of_Z be) (num_of_Z 512)) with
       | Some s => parseInt_number s
       | None => S754_nan
       end).

End Readback.
End CompiledReadback.

(** ** Comparing numbers *)

(** The same number, bit for bit (unlike [===], which equates the two
    zeros and separates NaN from itself). *)
Definition number_same (x y : number) : bool :=
  match x, y with
  | S754_zero a, S754_zero b => Bool.eqb a b
  | S754_infinity a, S754_infinity b => Bool.eqb a b
  | S754_nan, S754_nan => true
  | S754_finite s m e, S754_finite s' m' e' =>
      Bool.eqb s s' && Pos.eqb m m' && Z.eqb e e'
  | _, _ => false
  end.

(** ** Devices and ranges used to state further properties *)

(** A bus that accepts every write. *)
Definition accepts_writes (bus : Bus) : Prop :=
  forall (h : history) (addr cmd len : Z) (buf : Buffer),
    bus_write bus h addr cmd len buf = Resolved tt.

(** Errors that come from the transport. *)
Definition is_BusError (e : error) : Prop :=
  match e with
  | BusError _ => True
  | _ => False
  end.

(** Errors of a measurement read: the transport's, or the range check of
    the buffer read. *)
Definition is_read_error (e : error) : Prop :=
  match e with
  | BusError _ => True
  | RangeError => True
  | _ => False
  end.

(** [P] on [count] consecutive integers from [start] on. *)
Fixpoint forall_from (start : Z) (count : nat) (P : Z -> bool) : bool :=
  match count with
  | O => true
  | S count' => P start && forall_from (start + 1) count' P
  end.

(** The events of a successful [firmware_version] up to the read of the
    register bank. *)
Definition firmware_query_events : list event :=
  [ ReadBlock ENS160_I2CADDR ENS160_CMD_OPMODE 1;
    WriteBlock ENS160_I2CADDR ENS160_CMD_OPMODE 1 [x01]; Sleep 10;
    WriteBlock ENS160_I2CADDR ENS160_CMD_COMMAND 1 [x00];
    WriteBlock ENS160_I2CADDR ENS160_CMD_COMMAND 1 [xcc]; Sleep 10;
    Sleep 10;
    WriteBlock ENS160_I2CADDR ENS160_CMD_COMMAND 1 [x0e];
    ReadBlock ENS160_I2CADDR ENS160_CMD_READGPR 8 ].

(** Values of [Math.ceil] whose hexadecimal string does not start with a
    digit: NaN, the infinities and the negative integers. *)
Definition prints_no_leading_digit (k : integral) : Prop :=
  match k with
  | IInt z => z < 0
  | _ => True
  end.

(** What the hexadecimal detour keeps of a register value below 0x1000:
    nothing of a single digit, the byte itself of two digits, and the two
    leading digits of three. *)
Definition short_hex_bytes (k : Z) : Buffer :=
  if k <? 16 then []
  else if k <? 256 then [byte_of_Z k]
  else [byte_of_Z (k / 16)].

(** ** Checks run over ranges of inputs *)

(** The register value of the setter lies in the four-digit range and
    decodes to [expected]. *)
Definition decodes_back (decode : Z -> number) (register : integral)
    (expected : number) : bool :=
  match register with
  | IInt k =>
      (0x1000 <=? k) && (k <=? 0xFFFF) && number_same (decode k) expected
  | _ => false
  end.

Definition humidity_round_trip_check (tenths : Z) : bool :=
  decodes_back decode_humidity
    (Math_ceil (num_mul (num_of_tenths tenths) (num_of_Z 512)))
    (num_of_tenths tenths).

Definition temperature_round_trip_check (tenths : Z) : bool :=
  decodes_back decode_temperature
    (Math_ceil (num_mul (num_add (num_of_tenths tenths) lit_273_15)
                        (num_of_Z 64)))
    (num_of_tenths tenths).

(** A bus that accepts every write and answers every read with [data]
    and the length that was asked for. *)
Definition delivering_bus (data : list byte) : Bus := {|
  bus_write := fun _ _ _ _ _ => Resolved tt;
  bus_read := fun _ _ _ len => Resolved (len, data)
|}.

(** A bus that accepts every write and whose reads resolve with no byte
    at all. *)
Definition empty_read_bus : Bus := {|
  bus_write := fun _ _ _ _ _ => Resolved tt;
  bus_read := fun _ _ _ _ => Resolved (0, [])
|}.

(** A 16-bit value read as a two's complement number. *)
Definition signed_16 (u : Z) : Z := if u <? 32768 then u else u - 65536.

(** The decoding parts of the getters of the compiled build. *)
Definition compiled_decode_temperature (be : Z) : number :=
  match Number_toFixed1
          (num_sub (num_div (num_of_Z be) (num_of_Z 64)) lit_273_15) with
  | Some s => parseInt_number s
  | None => S754_nan
  end.

Definition compiled_decode_humidity (be : Z) : number :=
  match Number_toFixed1 (num_div (num_of_Z be) (num_of_Z 512)) with
  | Some s => parseInt_number s
  | None => S754_nan
  end.

Definition compiled_humidity_check (percent : Z) : bool :=
  number_same (compiled_decode_humidity (signed_16 (512 * percent)))
              (num_of_Z (if percent <? 64 then percent else percent - 128)).

Definition compiled_temperature_check (degrees : Z) : bool :=
  number_same (compiled_decode_temperature (signed_16 (64 * degrees + 17482)))
              (num_of_Z degrees).

(** The register values in exact arithmetic, for a quantity given in
    tenths: the ceilings of [(tenths / 10 + 273.15) * 64] and of
    [tenths / 10 * 512]. *)
Definition exact_temperature_register (tenths : Z) : Z :=
  Qceiling (((tenths # 10) + (27315 # 100)) * 64).

Definition exact_humidity_register (tenths : Z) : Z :=
  Qceiling ((tenths # 10) * 512).

Definition temperature_register_check (tenths : Z) : bool :=
  match Math_ceil (num_mul (num_add (num_of_tenths tenths) lit_273_15)
                           (num_of_Z 64)) with
  | IInt k => (k =? exact_temperature_register tenths)
              && (0x1000 <=? k) && (k <=? 0xFFFF)
  | _ => false
  end.

Definition humidity_register_check (tenths : Z) : bool :=
  match Math_ceil (num_mul (num_of_tenths tenths) (num_of_Z 512)) with
  | IInt k => (k =? exact_humidity_register tenths)
              && (0x1000 <=? k) && (k <=? 0xFFFF)
  | _ => false
  end.

(** ** Facts about bytes *)

Lemma byte_to_Z_range (b : byte) : 0 <= byte_to_Z b < 256.
Proof.
  unfold byte_to_Z.
  pose proof (Byte.to_N_bounded b) as Hb.
  lia.
Qed.

Lemma byte_of_to_Z (b : byte) : byte_of_Z (byte_to_Z b) = b.
Proof.
  unfold byte_of_Z.
  rewrite Z.mod_small by apply byte_to_Z_range.
  unfold byte_to_Z.
  rewrite N2Z.id, Byte.of_to_N.
  reflexivity.
Qed.

Lemma byte_to_of_Z (z : Z) : 0 <= z < 256 -> byte_to_Z (byte_of_Z z) = z.
Proof.
  intros Hz.
  unfold byte_of_Z, byte_to_Z.
  rewrite Z.mod_small by exact Hz.
  destruct (Byte.of_N (Z.to_N z)) as [b|] eqn:Hb.
  - apply Byte.to_of_N in Hb.
    rewrite Hb.
    apply Z2N.id; lia.
  - apply Byte.of_N_None_iff in Hb.
    lia.
Qed.

Lemma byte_to_Z_inj (a b : byte) : byte_to_Z a = byte_to_Z b -> a = b.
Proof.
  intros H.
  rewrite <- (byte_of_to_Z a), <- (byte_of_to_Z b), H.
  reflexivity.
Qed.

(** ** setMode *)

Lemma VALID_MODES_spec (mode : Z) :
  existsb (Z.eqb mode) VALID_MODES = true <->
  (mode = 0x00 \/ mode = 0x01 \/ mode = 0x02 \/ mode = 0xF0).
Proof.
  unfold VALID_MODES, MODE_SLEEP, MODE_IDLE, MODE_STANDARD, MODE_RESET.
  cbn [existsb].
  rewrite !orb_true_iff, !Z.eqb_eq.
  intuition discriminate.
Qed.

Lemma setMode_valid (bus : Bus) (mode : Z) (h : history) :
  existsb (Z.eqb mode) VALID_MODES = true ->
  setMode bus mode h =
    let w := WriteBlock ENS160_I2CADDR ENS160_CMD_OPMODE 1 [byte_of_Z mode] in
    match bus_write bus h ENS160_I2CADDR ENS160_CMD_OPMODE 1 [byte_of_Z mode] with
    | Resolved _ => (h ++ [w; Sleep 10], Returned true)
    | Rejected msg => (h ++ [w], Threw (BusError msg))
    end.
Proof.
  intros Hvalid.
  unfold setMode.
  rewrite Hvalid.
  cbn [negb Buffer_from_array map Buffer_length List.length Z.of_nat
       Pos.of_succ_nat].
  unfold bind, writeI2cBlock, sleep, ret.
  destruct (bus_write bus h ENS160_I2CADDR ENS160_CMD_OPMODE 1 [byte_of_Z mode]).
  - rewrite <- app_assoc. reflexivity.
  - reflexivity.
Qed.

Lemma setMode_invalid (bus : Bus) (mode : Z) (h : history) :
  existsb (Z.eqb mode) VALID_MODES = false ->
  setMode bus mode h = (h, Threw (InvalidMode mode)).
Proof.
  intros Hinvalid.
  unfold setMode.
  rewrite Hinvalid.
  reflexivity.
Qed.

(** C2. A mode outside {0x00, 0x01, 0x02, 0xF0} makes [setMode] throw
    [InvalidMode] with the history untouched, so no bus access happened;
    a mode inside the set makes it issue exactly one write, of the single
    byte whose value is the mode, to the mode register (followed by the
    10 ms wait when the bus accepts the write). *)
Theorem setMode_rejects_or_writes_one_byte (bus : Bus) (mode : Z) (h : history) :
  (mode <> 0x00 -> mode <> 0x01 -> mode <> 0x02 -> mode <> 0xF0 ->
   setMode bus mode h = (h, Threw (InvalidMode mode))) /\
  (mode = 0x00 \/ mode = 0x01 \/ mode = 0x02 \/ mode = 0xF0 ->
   exists b : byte,
     byte_to_Z b = mode /\
     setMode bus mode h =
       match bus_write bus h ENS160_I2CADDR ENS160_CMD_OPMODE 1 [b] with
       | Resolved _ =>
           (h ++ [WriteBlock ENS160_I2CADDR ENS160_CMD_OPMODE 1 [b]; Sleep 10],
            Returned true)
       | Rejected msg =>
           (h ++ [WriteBlock ENS160_I2CADDR ENS160_CMD_OPMODE 1 [b]],
            Threw (BusError msg))
       end).
Proof.
  split.
  - intros H0 H1 H2 H3.
    apply setMode_invalid.
    destruct (existsb (Z.eqb mode) VALID_MODES) eqn:E; [|reflexivity].
    apply VALID_MODES_spec in E.
    intuition congruence.
  - intros Hmode.
    exists (byte_of_Z mode).
    split.
    + apply byte_to_of_Z. lia.
    + apply setMode_valid.
      apply VALID_MODES_spec.
      exact Hmode.
Qed.

Lemma setMode_rejects_or_writes_one_byte_witness :
  setMode healthy_bus 3 [] = ([], Threw (InvalidMode 3)) /\
  exists b : byte,
    byte_to_Z b = 0xF0 /\
    setMode healthy_bus 0xF0 [] =
      ([WriteBlock ENS160_I2CADDR ENS160_CMD_OPMODE 1 [b]; Sleep 10],
       Returned true).
Proof.
  split.
  - apply (proj1 (setMode_rejects_or_writes_one_byte healthy_bus 3 []));
      discriminate.
  - destruct (proj2 (setMode_rejects_or_writes_one_byte healthy_bus 0xF0 []))
      as [b [Hb Hrun]].
    + right; right; right; reflexivity.
    + exists b. split; [exact Hb | exact Hrun].
Defined.

(** ** check *)

Lemma filled_buffer_2 (data : list byte) :
  exists b0 b1 : byte, firstn 2 (data ++ Buffer_alloc 2) = [b0; b1].
Proof.
  destruct data as [|d0 [|d1 rest]]; do 2 eexists; reflexivity.
Qed.

Lemma readIntLE_2 (b0 b1 : byte) :
  readIntLE [b0; b1] 0 2 =
    Returned (if le_unsigned [b0; b1] <? 32768 then le_unsigned [b0; b1]
              else le_unsigned [b0; b1] - 65536).
Proof. reflexivity. Qed.

Lemma part_id_bytes (b0 b1 : byte) :
  le_unsigned [b0; b1] = ENS160_PARTID <-> b0 = x60 /\ b1 = x01.
Proof.
  unfold ENS160_PARTID.
  cbn [le_unsigned].
  pose proof (byte_to_Z_range b0) as R0.
  pose proof (byte_to_Z_range b1) as R1.
  split.
  - intros H.
    split; apply byte_to_Z_inj.
    + change (byte_to_Z x60) with 96. lia.
    + change (byte_to_Z x01) with 1. lia.
  - intros [-> ->]. reflexivity.
Qed.

Lemma check_run (bus : Bus) (h : history) :
  check bus h =
    (h ++ [ReadBlock ENS160_I2CADDR ENS160_CMD_PARTID 2],
     match bus_read bus h ENS160_I2CADDR ENS160_CMD_PARTID 2 with
     | Resolved (_, data) =>
         if le_unsigned (firstn 2 (data ++ Buffer_alloc 2)) =? ENS160_PARTID
         then Returned true else Threw IdentityMismatch
     | Rejected msg => Threw (BusError msg)
     end).
Proof.
  unfold check, bind, readI2cBlock, lift.
  destruct (bus_read bus h ENS160_I2CADDR ENS160_CMD_PARTID 2)
    as [[n data]|msg]; [|reflexivity].
  cbn [buffer].
  change (Z.to_nat 2) with 2%nat.
  destruct (filled_buffer_2 data) as [b0 [b1 Hbuf]].
  rewrite Hbuf, readIntLE_2.
  pose proof (byte_to_Z_range b0) as R0.
  pose proof (byte_to_Z_range b1) as R1.
  unfold ENS160_PARTID.
  cbn [le_unsigned] in *.
  destruct (_ <? 32768) eqn:Hsign.
  - destruct (_ =? 352); reflexivity.
  - apply Z.ltb_ge in Hsign.
    replace (byte_to_Z b0 + 256 * (byte_to_Z b1 + 256 * 0) - 65536 =? 352)
      with false by (symmetry; apply Z.eqb_neq; lia).
    replace (byte_to_Z b0 + 256 * (byte_to_Z b1 + 256 * 0) =? 352)
      with false by (symmetry; apply Z.eqb_neq; lia).
    reflexivity.
Qed.

(** C6. [check] issues exactly one bus operation, a read of 2 bytes from
    the identity register, and no write.  When the read resolves, the two
    bytes in the buffer are decoded little-endian; [check] returns [true]
    when the value is the part ID 0x0160, that is for the pair
    [0x60, 0x01] and for no other, and throws [IdentityMismatch] for every
    other pair. *)
Theorem check_accepts_only_part_id
    (bus : Bus) (h : history) (n : Z) (data : list byte) :
  bus_read bus h ENS160_I2CADDR ENS160_CMD_PARTID 2 = Resolved (n, data) ->
  exists b0 b1 : byte,
    firstn 2 (data ++ Buffer_alloc 2) = [b0; b1] /\
    check bus h =
      (h ++ [ReadBlock ENS160_I2CADDR ENS160_CMD_PARTID 2],
       if le_unsigned [b0; b1] =? ENS160_PARTID then Returned true
       else Threw IdentityMismatch) /\
    (le_unsigned [b0; b1] = ENS160_PARTID <-> b0 = x60 /\ b1 = x01).
Proof.
  intros Hread.
  destruct (filled_buffer_2 data) as [b0 [b1 Hbuf]].
  exists b0, b1.
  split; [exact Hbuf|].
  split; [|apply part_id_bytes].
  rewrite check_run, Hread, Hbuf.
  reflexivity.
Qed.

Lemma check_accepts_only_part_id_witness :
  exists b0 b1 : byte,
    firstn 2 ([x60; x01] ++ Buffer_alloc 2) = [b0; b1] /\
    check healthy_bus [] =
      ([ReadBlock ENS160_I2CADDR ENS160_CMD_PARTID 2],
       if le_unsigned [b0; b1] =? ENS160_PARTID then Returned true
       else Threw IdentityMismatch) /\
    (le_unsigned [b0; b1] = ENS160_PARTID <-> b0 = x60 /\ b1 = x01).
Proof.
  apply (check_accepts_only_part_id healthy_bus [] 2 [x60; x01]).
  reflexivity.
Defined.

(** A rejected read is the only other way [check] can end. *)
Lemma check_bus_error (bus : Bus) (h : history) (msg : string) :
  bus_read bus h ENS160_I2CADDR ENS160_CMD_PARTID 2 = Rejected msg ->
  check bus h =
    (h ++ [ReadBlock ENS160_I2CADDR ENS160_CMD_PARTID 2], Threw (BusError msg)).
Proof.
  intros Hread.
  unfold check, bind, readI2cBlock.
  rewrite Hread.
  reflexivity.
Qed.

(** ** Operations resolve to [true] or throw *)

Lemma ensures_ret {A} (R : A -> Prop) (E : error -> Prop) (a : A) :
  R a -> ensures R E (ret a).
Proof. intros Ha h. exact Ha. Qed.

Lemma ensures_throw {A} (R : A -> Prop) (E : error -> Prop) (e : error) :
  E e -> ensures R E (@throw A e).
Proof. intros He h. exact He. Qed.

Lemma ensures_bind {A B} (R1 : A -> Prop) (R2 : B -> Prop) (E : error -> Prop)
    (m : io A) (k : A -> io B) :
  ensures R1 E m ->
  (forall a, R1 a -> ensures R2 E (k a)) ->
  ensures R2 E (bind m k).
Proof.
  intros Hm Hk h.
  unfold bind.
  specialize (Hm h).
  destruct (m h) as [h' [a|e]]; cbn [snd] in *.
  - apply Hk. exact Hm.
  - exact Hm.
Qed.

Lemma ensures_weaken {A} (R R' : A -> Prop) (E : error -> Prop) (m : io A) :
  (forall a, R a -> R' a) -> ensures R E m -> ensures R' E m.
Proof.
  intros HR Hm h.
  specialize (Hm h).
  destruct (snd (m h)); auto.
Qed.

Lemma ensures_sleep (ms : Z) : ensures anything other_error (sleep ms).
Proof. intros h. exact I. Qed.

Lemma ensures_write (bus : Bus) (addr cmd len : Z) (buf : Buffer) :
  ensures anything other_error (writeI2cBlock bus addr cmd len buf).
Proof.
  intros h.
  unfold writeI2cBlock.
  cbn [snd].
  destruct (bus_write bus h addr cmd len buf); [exact I | reflexivity].
Qed.

Lemma ensures_read (bus : Bus) (addr cmd len : Z) :
  ensures anything other_error (readI2cBlock bus addr cmd len).
Proof.
  intros h.
  unfold readI2cBlock.
  cbn [snd].
  destruct (bus_read bus h addr cmd len) as [[n data]|msg];
    [exact I | reflexivity].
Qed.

Lemma ensures_readIntLE (buf : Buffer) (offset byteLength : Z) :
  ensures anything other_error (lift (readIntLE buf offset byteLength)).
Proof.
  intros h.
  unfold lift, readIntLE.
  cbn [snd].
  destruct (_ && _); [exact I | reflexivity].
Qed.

Create HintDb ens160.

#[local] Hint Resolve ensures_sleep ensures_write ensures_read
  ensures_readIntLE : ens160.

Ltac ensures_step :=
  first
    [ apply ensures_ret; reflexivity
    | apply ensures_throw; reflexivity
    | eapply ensures_bind; [solve [eauto with ens160] | intros ? ?] ].

Lemma setMode_ensures (bus : Bus) (mode : Z) :
  ensures is_true other_error (setMode bus mode).
Proof.
  unfold setMode.
  destruct (negb _).
  - ensures_step.
  - cbv zeta. repeat ensures_step.
Qed.

Lemma reset_ensures (bus : Bus) : ensures is_true other_error (reset bus).
Proof.
  unfold reset.
  eapply ensures_bind; [apply setMode_ensures | intros ? ?].
  ensures_step.
Qed.

Lemma check_ensures (bus : Bus) : ensures is_true other_error (check bus).
Proof.
  unfold check.
  repeat ensures_step.
  destruct (negb _); ensures_step.
Qed.

Lemma clear_command_ensures (bus : Bus) :
  ensures is_true other_error (clear_command bus).
Proof. unfold clear_command. repeat ensures_step. Qed.

Lemma temperature_compensation_ensures (bus : Bus) (temp_c : number) :
  ensures is_true other_error (temperature_compensation bus temp_c).
Proof. unfold temperature_compensation. cbv zeta. repeat ensures_step. Qed.

Lemma humidity_compensation_ensures (bus : Bus) (humidity : number) :
  ensures is_true other_error (humidity_compensation bus humidity).
Proof. unfold humidity_compensation. cbv zeta. repeat ensures_step. Qed.

#[local] Hint Resolve setMode_ensures reset_ensures check_ensures
  clear_command_ensures temperature_compensation_ensures
  humidity_compensation_ensures : ens160.

Lemma init_ensures (bus : Bus) : ensures is_true other_error (init bus).
Proof.
  unfold init.
  eapply ensures_bind; [apply ensures_sleep | intros ? ?].
  eapply ensures_bind; [apply reset_ensures | intros ? ?].
  eapply ensures_bind; [apply check_ensures | intros detected Hdetected].
  rewrite Hdetected.
  cbn [negb].
  repeat ensures_step.
Qed.

(** C10. Each of the seven boolean-returning operations either throws or
    returns [true], never [false]; in particular [check] cannot hand
    [false] to [init] from any history, so the branch of [init] that
    throws on a falsy [check] is never taken and [init] never throws
    the error of that branch. *)
Theorem boolean_operations_resolve_true_or_throw
    (bus : Bus) (mode : Z) (temp_c humidity : number) :
  ensures is_true anything (init bus) /\
  ensures is_true anything (reset bus) /\
  ensures is_true anything (setMode bus mode) /\
  ensures is_true anything (check bus) /\
  ensures is_true anything (clear_command bus) /\
  ensures is_true anything (temperature_compensation bus temp_c) /\
  ensures is_true anything (humidity_compensation bus humidity) /\
  ensures anything other_error (init bus).
Proof.
  assert (Hdrop : forall m : io bool,
             ensures is_true other_error m -> ensures is_true anything m).
  { intros m Hm h. specialize (Hm h). destruct (snd (m h)); [exact Hm | exact I]. }
  repeat split; try (apply Hdrop; auto with ens160 ; apply init_ensures).
  intros h.
  pose proof (init_ensures bus h) as Hinit.
  destruct (snd (init bus h)); [exact I | exact Hinit].
Qed.

(** ** The initialization sequence *)

Lemma default_temperature_buffer :
  Buffer_from_hex
    (Number_toString16
       (Math_ceil (num_mul (num_add (num_of_Z 25) lit_273_15) (num_of_Z 64))))
  = [x4a; x8a].
Proof. vm_compute. reflexivity. Qed.

Lemma default_humidity_buffer :
  Buffer_from_hex
    (Number_toString16 (Math_ceil (num_mul (num_of_Z 50) (num_of_Z 512))))
  = [x64; x00].
Proof. vm_compute. reflexivity. Qed.

Lemma compiled_temperature_buffer :
  Buffer_from_hex
    (Number_toString16
       (Math_ceil (num_mul (num_add lit_25_5 lit_273_15) (num_of_Z 64))))
  = [x4a; xaa].
Proof. vm_compute. reflexivity. Qed.

Lemma compiled_humidity_buffer :
  Buffer_from_hex
    (Number_toString16 (Math_ceil (num_mul (num_of_Z 51) (num_of_Z 512))))
  = [x66; x00].
Proof. vm_compute. reflexivity. Qed.

(** One step of the monad at a time. *)

Lemma bind_bind {A B C} (m : io A) (k1 : A -> io B) (k2 : B -> io C) (h : history) :
  bind (bind m k1) k2 h = bind m (fun a => bind (k1 a) k2) h.
Proof.
  unfold bind.
  destruct (m h) as [h' [a|e]]; reflexivity.
Qed.

Lemma bind_ret {A B} (a : A) (k : A -> io B) (h : history) :
  bind (ret a) k h = k a h.
Proof. reflexivity. Qed.

Lemma bind_sleep {B} (ms : Z) (k : unit -> io B) (h : history) :
  bind (sleep ms) k h = k tt (h ++ [Sleep ms]).
Proof. reflexivity. Qed.

Lemma bind_write {B} (bus : Bus) (addr cmd len : Z) (buf : Buffer)
    (k : unit -> io B) (h : history) :
  bind (writeI2cBlock bus addr cmd len buf) k h =
    match bus_write bus h addr cmd len buf with
    | Resolved _ => k tt (h ++ [WriteBlock addr cmd len buf])
    | Rejected msg => (h ++ [WriteBlock addr cmd len buf], Threw (BusError msg))
    end.
Proof.
  unfold bind, writeI2cBlock.
  destruct (bus_write bus h addr cmd len buf); reflexivity.
Qed.

Lemma bind_read {B} (bus : Bus) (addr cmd len : Z)
    (k : read_result -> io B) (h : history) :
  bind (readI2cBlock bus addr cmd len) k h =
    match bus_read bus h addr cmd len with
    | Resolved (n, data) =>
        k {| bytesRead := n;
             buffer := firstn (Z.to_nat len) (data ++ Buffer_alloc len) |}
          (h ++ [ReadBlock addr cmd len])
    | Rejected msg => (h ++ [ReadBlock addr cmd len], Threw (BusError msg))
    end.
Proof.
  unfold bind, readI2cBlock.
  destruct (bus_read bus h addr cmd len) as [[n data]|msg]; reflexivity.
Qed.

Lemma bind_check {B} (bus : Bus) (k : bool -> io B) (h : history) :
  bind (check bus) k h =
    match bus_read bus h ENS160_I2CADDR ENS160_CMD_PARTID 2 with
    | Resolved (_, data) =>
        if le_unsigned (firstn 2 (data ++ Buffer_alloc 2)) =? ENS160_PARTID
        then k true (h ++ [ReadBlock ENS160_I2CADDR ENS160_CMD_PARTID 2])
        else (h ++ [ReadBlock ENS160_I2CADDR ENS160_CMD_PARTID 2],
              Threw IdentityMismatch)
    | Rejected msg =>
        (h ++ [ReadBlock ENS160_I2CADDR ENS160_CMD_PARTID 2],
         Threw (BusError msg))
    end.
Proof.
  unfold bind.
  rewrite check_run.
  destruct (bus_read bus h ENS160_I2CADDR ENS160_CMD_PARTID 2)
    as [[n data]|msg]; [|reflexivity].
  destruct (_ =? _); reflexivity.
Qed.

(** [setMode] on the three modes [init] uses. *)
Lemma setMode_constant (bus : Bus) (mode : Z) :
  existsb (Z.eqb mode) VALID_MODES = true ->
  setMode bus mode =
    (writeI2cBlock bus ENS160_I2CADDR ENS160_CMD_OPMODE 1 [byte_of_Z mode] ;;
     sleep 10 ;;
     ret true).
Proof.
  intros Hvalid.
  unfold setMode.
  rewrite Hvalid.
  reflexivity.
Qed.

Ltac run_one_step :=
  first
    [ rewrite bind_bind
    | rewrite bind_ret
    | rewrite bind_sleep
    | rewrite bind_check
    | rewrite bind_write ];
  try match goal with
    | |- match bus_write ?b ?h ?a ?c ?l ?d with _ => _ end = _ =>
        destruct (bus_write b h a c l d)
    | |- match bus_read ?b ?h ?a ?c ?l with _ => _ end = _ =>
        destruct (bus_read b h a c l) as [[? ?]|?]
    end;
  try match goal with
    | |- (if ?c then _ else _) = _ => destruct c
    end;
  cbn [run_steps step_failure negb];
  try reflexivity.

Lemma init_runs_init_steps (bus : Bus) (h : history) :
  init bus h = run_steps bus init_steps h.
Proof.
  unfold init, reset, clear_command, temperature_compensation,
    humidity_compensation.
  cbv zeta.
  rewrite default_temperature_buffer, default_humidity_buffer.
  rewrite !setMode_constant by reflexivity.
  change (Buffer_length [x4a; x8a]) with 2.
  change (Buffer_length [x64; x00]) with 2.
  change (byte_of_Z MODE_RESET) with xf0.
  change (byte_of_Z MODE_IDLE) with x01.
  change (byte_of_Z MODE_STANDARD) with x02.
  change (Buffer_from_array [COMMAND_NOP]) with [x00].
  change (Buffer_from_array [COMMAND_CLRGPR]) with [xcc].
  unfold init_steps, init_steps_with.
  repeat run_one_step.
Qed.

Lemma compiled_init_runs_init_steps (bus : Bus) (h : history) :
  Compiled.init bus h = run_steps bus compiled_init_steps h.
Proof.
  unfold Compiled.init, reset, clear_command, Compiled.temperature_compensation,
    humidity_compensation.
  cbv zeta.
  rewrite compiled_temperature_buffer, compiled_humidity_buffer.
  rewrite !setMode_constant by reflexivity.
  change (Buffer_length [x66; x00]) with 2.
  change (byte_of_Z MODE_RESET) with xf0.
  change (byte_of_Z MODE_IDLE) with x01.
  change (byte_of_Z MODE_STANDARD) with x02.
  change (Buffer_from_array [COMMAND_NOP]) with [x00].
  change (Buffer_from_array [COMMAND_CLRGPR]) with [xcc].
  unfold compiled_init_steps, init_steps_with.
  repeat run_one_step.
Qed.

(** A run in which no step fails issues every step and returns [true]. *)
Lemma run_steps_all_succeed (bus : Bus) (steps : list event) :
  forall h : history,
    (forall i : nat, (i < List.length steps)%nat ->
       step_failure bus (h ++ firstn i steps) (nth i steps (Sleep 0)) = None) ->
    run_steps bus steps h = (h ++ steps, Returned true).
Proof.
  induction steps as [|step rest IH]; intros h Hall.
  - cbn. rewrite app_nil_r. reflexivity.
  - cbn [run_steps].
    pose proof (Hall 0%nat ltac:(cbn; lia)) as H0.
    cbn [firstn nth] in H0.
    rewrite app_nil_r in H0.
    rewrite H0, IH.
    + rewrite <- app_assoc. reflexivity.
    + intros i Hi.
      specialize (Hall (S i) ltac:(cbn; lia)).
      cbn [firstn nth] in Hall.
      rewrite <- app_assoc.
      exact Hall.
Qed.

(** A run whose first failing step is step [k] issues the steps up to and
    including [k], nothing after it, and throws the error of step [k]. *)
Lemma run_steps_first_failure (bus : Bus) (steps : list event) :
  forall (h : history) (k : nat) (e : error),
    (k < List.length steps)%nat ->
    (forall i : nat, (i < k)%nat ->
       step_failure bus (h ++ firstn i steps) (nth i steps (Sleep 0)) = None) ->
    step_failure bus (h ++ firstn k steps) (nth k steps (Sleep 0)) = Some e ->
    run_steps bus steps h = (h ++ firstn (S k) steps, Threw e).
Proof.
  induction steps as [|step rest IH]; intros h k e Hk Hbefore Hfail.
  - cbn in Hk. lia.
  - cbn [run_steps].
    destruct k as [|k].
    + cbn [firstn nth] in Hfail.
      rewrite app_nil_r in Hfail.
      rewrite Hfail.
      reflexivity.
    + pose proof (Hbefore 0%nat ltac:(lia)) as H0.
      cbn [firstn nth] in H0.
      rewrite app_nil_r in H0.
      rewrite H0.
      rewrite (IH (h ++ [step]) k e).
      * rewrite <- app_assoc. reflexivity.
      * cbn in Hk. lia.
      * intros i Hi.
        specialize (Hbefore (S i) ltac:(lia)).
        cbn [firstn nth] in Hbefore.
        rewrite <- app_assoc.
        exact Hbefore.
      * cbn [firstn nth] in Hfail.
        rewrite <- app_assoc.
        exact Hfail.
Qed.

(** C1. [init] is the sequential run of the thirteen bus-visible steps
    startup wait, reset write, identity read, idle write, clear-command
    exchange, standard write and the two compensation writes, in this
    order (the compiled build runs the same steps with its own default
    values).  When no step fails, all of them are issued and [init] returns
    [true]; when step [k] is the first to fail, the steps up to [k] are
    issued, nothing after it, and [init] throws the error of step [k].  The
    mode register receives exactly Reset, Idle, Standard in this order, and
    the clear-command exchange lies between the Idle and Standard writes. *)
Theorem init_runs_the_sequence_in_order (bus : Bus) (h : history) :
  init bus h = run_steps bus init_steps h /\
  Compiled.init bus h = run_steps bus compiled_init_steps h /\
  ((forall i : nat, (i < 13)%nat ->
      step_failure bus (h ++ firstn i init_steps) (nth i init_steps (Sleep 0))
      = None) ->
   init bus h = (h ++ init_steps, Returned true)) /\
  (forall (k : nat) (e : error),
     (k < 13)%nat ->
     (forall i : nat, (i < k)%nat ->
        step_failure bus (h ++ firstn i init_steps) (nth i init_steps (Sleep 0))
        = None) ->
     step_failure bus (h ++ firstn k init_steps) (nth k init_steps (Sleep 0))
     = Some e ->
     init bus h = (h ++ firstn (S k) init_steps, Threw e)) /\
  mode_writes init_steps =
    map (fun mode => [byte_of_Z mode]) [MODE_RESET; MODE_IDLE; MODE_STANDARD] /\
  init_steps =
    firstn 4 init_steps ++
    [ WriteBlock ENS160_I2CADDR ENS160_CMD_OPMODE 1 [byte_of_Z MODE_IDLE];
      Sleep 10;
      WriteBlock ENS160_I2CADDR ENS160_CMD_COMMAND 1 [byte_of_Z COMMAND_NOP];
      WriteBlock ENS160_I2CADDR ENS160_CMD_COMMAND 1 [byte_of_Z COMMAND_CLRGPR];
      Sleep 10;
      WriteBlock ENS160_I2CADDR ENS160_CMD_OPMODE 1 [byte_of_Z MODE_STANDARD];
      Sleep 10 ] ++
    skipn 11 init_steps.
Proof.
  split; [apply init_runs_init_steps|].
  split; [apply compiled_init_runs_init_steps|].
  split; [|split; [|split; reflexivity]].
  - intros Hall.
    rewrite init_runs_init_steps.
    apply run_steps_all_succeed.
    exact Hall.
  - intros k e Hk Hbefore Hfail.
    rewrite init_runs_init_steps.
    apply run_steps_first_failure; assumption.
Qed.

Lemma init_runs_the_sequence_in_order_witness :
  init healthy_bus [] = (init_steps, Returned true) /\
  init stranger_bus [] = (firstn 4 init_steps, Threw IdentityMismatch).
Proof.
  split.
  - apply (proj1 (proj2 (proj2
             (init_runs_the_sequence_in_order healthy_bus [])))).
    intros i Hi.
    do 13 (destruct i as [|i]; [reflexivity|]).
    lia.
  - apply (proj1 (proj2 (proj2 (proj2
             (init_runs_the_sequence_in_order stranger_bus [])))) 3%nat).
    + lia.
    + intros i Hi.
      do 3 (destruct i as [|i]; [reflexivity|]).
      lia.
    + reflexivity.
Defined.

(** ** status *)

(** What the decoder computes for every status byte: the two flags are
    bits 7 and 6, and the validity is read from the single character at
    index 4 of the binary string, which is bit 3. *)
Lemma decode_status_bits (b : byte) :
  decode_status (byte_to_Z b) =
    {| st_opmode := Z.testbit (byte_to_Z b) 7;
       st_error := Z.testbit (byte_to_Z b) 6;
       st_status := if Z.testbit (byte_to_Z b) 3 then warmup else normal |}.
Proof. destruct b; vm_compute; reflexivity. Qed.

Lemma validity_field_zero (b : byte) :
  (byte_to_Z b / 4) mod 4 = 0 -> Z.testbit (byte_to_Z b) 3 = false.
Proof. destruct b; vm_compute; intros H; first [reflexivity | discriminate H]. Qed.

Lemma status_run (bus : Bus) (h : history) (n : Z) (b : byte) (rest : list byte) :
  bus_read bus h ENS160_I2CADDR ENS160_CMD_STATUS 1 = Resolved (n, b :: rest) ->
  status bus h =
    (h ++ [ReadBlock ENS160_I2CADDR ENS160_CMD_STATUS 1],
     Returned (decode_status (byte_to_Z b))).
Proof.
  intros Hread.
  unfold status.
  rewrite bind_read, Hread.
  reflexivity.
Qed.

(** C4, as the claim states it, fails on the byte it names: 0b10010000,
    which is 0x90, has bits 3-2 equal to 00 and decodes to normal, not to warmup.  The device
    [healthy_bus] delivers this byte from the status register. *)
Lemma status_0x90_is_not_warmup :
  bus_read healthy_bus [] ENS160_I2CADDR ENS160_CMD_STATUS 1
    = Resolved (1, [x90]) /\
  byte_to_Z x90 = 0x90 /\
  snd (status healthy_bus []) <>
    Returned {| st_opmode := true; st_error := false; st_status := warmup |} /\
  spec_validity (byte_to_Z x90) <> warmup.
Proof.
  repeat split; try reflexivity; vm_compute; discriminate.
Qed.

(** C4, amended.  [status] reads one byte from the status register; the
    opmode flag of the snapshot is bit 7 of the byte, the error flag is
    bit 6, and when bits 3-2 are 00 the validity is normal; the byte
    0b10010000 (0x90) decodes to opmode true, error false, validity
    normal. *)
Theorem status_decodes_flags_and_normal
    (bus : Bus) (h : history) (n : Z) (b : byte) (rest : list byte) :
  bus_read bus h ENS160_I2CADDR ENS160_CMD_STATUS 1 = Resolved (n, b :: rest) ->
  exists s : StatusSnapshot,
    status bus h =
      (h ++ [ReadBlock ENS160_I2CADDR ENS160_CMD_STATUS 1], Returned s) /\
    st_opmode s = Z.testbit (byte_to_Z b) 7 /\
    st_error s = Z.testbit (byte_to_Z b) 6 /\
    ((byte_to_Z b / 4) mod 4 = 0 ->
     st_status s = spec_validity (byte_to_Z b) /\ st_status s = normal) /\
    (byte_to_Z b = 0x90 ->
     s = {| st_opmode := true; st_error := false; st_status := normal |}).
Proof.
  intros Hread.
  exists (decode_status (byte_to_Z b)).
  split; [apply (status_run bus h n b rest Hread)|].
  rewrite decode_status_bits.
  cbn [st_opmode st_error st_status].
  split; [reflexivity|].
  split; [reflexivity|].
  split.
  - intros Hfield.
    unfold spec_validity.
    rewrite Hfield, (validity_field_zero b Hfield).
    split; reflexivity.
  - intros Hbyte.
    rewrite Hbyte.
    reflexivity.
Qed.

Lemma status_decodes_flags_and_normal_witness :
  exists s : StatusSnapshot,
    status healthy_bus [] =
      ([ReadBlock ENS160_I2CADDR ENS160_CMD_STATUS 1], Returned s) /\
    s = {| st_opmode := true; st_error := false; st_status := normal |}.
Proof.
  destruct (status_decodes_flags_and_normal healthy_bus [] 1 x90 [] eq_refl)
    as [s [Hrun [_ [_ [_ Hs]]]]].
  exists s.
  split; [exact Hrun | apply Hs; reflexivity].
Defined.

(** ** firmware_version *)

Lemma firmware_version_run (bus : Bus) (h : history) :
  firmware_version bus h =
    (curr <- getMode bus ;;
     gpr <- firmware_query bus ;;
     _ <- setMode bus curr ;;
     ret (version_string gpr)) h.
Proof.
  unfold firmware_version, firmware_query, version_string.
  unfold bind.
  destruct (getMode bus h) as [h1 [curr|e]]; [|reflexivity].
  destruct (setMode bus MODE_IDLE h1) as [h2 [v2|e]]; [|reflexivity].
  destruct (clear_command bus h2) as [h3 [v3|e]]; [|reflexivity].
  destruct (sleep 10 h3) as [h3' [v3'|e]]; [|reflexivity].
  destruct (writeI2cBlock bus _ _ _ _ h3') as [h4 [v4|e]]; [|reflexivity].
  destruct (read_gpr bus h4) as [h5 [gpr|e]]; reflexivity.
Qed.

(** C5, as the claim states it, fails when a step after the initial read
    fails.  On [gpr_failing_bus] the initial read succeeds and saves mode
    2 (Standard); the read of the register bank is then rejected, and the
    operation ends with that error.  The only write the mode register
    ever received is the switch to Idle: no [setMode] with the saved value
    was issued. *)
Lemma firmware_version_no_restore_after_failure :
  getMode gpr_failing_bus [] =
    ([ReadBlock ENS160_I2CADDR ENS160_CMD_OPMODE 1], Returned MODE_STANDARD) /\
  snd (firmware_version gpr_failing_bus []) = Threw (BusError "EIO") /\
  mode_writes (fst (firmware_version gpr_failing_bus [])) = [[byte_of_Z MODE_IDLE]] /\
  ~ In (WriteBlock ENS160_I2CADDR ENS160_CMD_OPMODE 1 [byte_of_Z MODE_STANDARD])
       (fst (firmware_version gpr_failing_bus [])).
Proof.
  repeat split; try reflexivity.
  vm_compute.
  intros H.
  repeat (destruct H as [H|H]; [discriminate H|]).
  exact H.
Qed.

(** C5, amended.  Once the initial mode read has succeeded with value
    [curr]: when the steps from forcing Idle to reading the register bank
    all succeed, [setMode curr] is run from the history they left, and the
    operation completes with what that restoring call yields (the version
    string when it returns, its error when it throws), so that for a
    saved value among the valid modes the restoring write is on the bus;
    when one of those steps fails, the operation ends there with that
    step's error and history. *)
Theorem firmware_version_restores_after_query
    (bus : Bus) (h h1 : history) (curr : Z) :
  getMode bus h = (h1, Returned curr) ->
  match firmware_query bus h1 with
  | (h5, Returned gpr) =>
      firmware_version bus h =
        (fst (setMode bus curr h5),
         match snd (setMode bus curr h5) with
         | Returned _ => Returned (version_string gpr)
         | Threw e => Threw e
         end) /\
      (existsb (Z.eqb curr) VALID_MODES = true ->
       exists h6 : history,
         fst (firmware_version bus h) =
           h5 ++ WriteBlock ENS160_I2CADDR ENS160_CMD_OPMODE 1 [byte_of_Z curr]
              :: h6)
  | (h5, Threw e) => firmware_version bus h = (h5, Threw e)
  end.
Proof.
  intros Hmode.
  assert (Hrun : firmware_version bus h =
                 match firmware_query bus h1 with
                 | (h5, Returned gpr) =>
                     (fst (setMode bus curr h5),
                      match snd (setMode bus curr h5) with
                      | Returned _ => Returned (version_string gpr)
                      | Threw e => Threw e
                      end)
                 | (h5, Threw e) => (h5, Threw e)
                 end).
  { rewrite firmware_version_run.
    unfold bind at 1.
    rewrite Hmode.
    unfold bind, ret.
    destruct (firmware_query bus h1) as [h5 [gpr|e]]; [|reflexivity].
    destruct (setMode bus curr h5) as [h6 [v|e]]; reflexivity. }
  destruct (firmware_query bus h1) as [h5 [gpr|e]]; [|exact Hrun].
  split; [exact Hrun|].
  intros Hvalid.
  rewrite Hrun, (setMode_valid bus curr h5 Hvalid).
  cbv zeta.
  destruct (bus_write bus h5 _ _ _ _).
  - exists [Sleep 10]. reflexivity.
  - exists []. reflexivity.
Qed.

Lemma firmware_version_restores_after_query_witness :
  snd (firmware_version healthy_bus []) = Returned "1.4.2"%string /\
  exists h6 : history,
    fst (firmware_version healthy_bus []) =
      fst (firmware_query healthy_bus
             [ReadBlock ENS160_I2CADDR ENS160_CMD_OPMODE 1]) ++
      WriteBlock ENS160_I2CADDR ENS160_CMD_OPMODE 1 [byte_of_Z MODE_STANDARD]
      :: h6.
Proof.
  pose proof (firmware_version_restores_after_query healthy_bus []
                [ReadBlock ENS160_I2CADDR ENS160_CMD_OPMODE 1] MODE_STANDARD
                eq_refl) as H.
  destruct (firmware_query healthy_bus
              [ReadBlock ENS160_I2CADDR ENS160_CMD_OPMODE 1])
    as [h5 [gpr|e]] eqn:Hquery.
  - destruct H as [Hrun Hwrite].
    split.
    + rewrite Hrun.
      injection Hquery as <- <-.
      reflexivity.
    + apply Hwrite. reflexivity.
  - discriminate Hquery.
Defined.

(** ** Measurement reads *)

Lemma readIntLE_1 (b : byte) :
  readIntLE [b] 0 1 =
    Returned (if byte_to_Z b <? 128 then byte_to_Z b else byte_to_Z b - 256).
Proof. destruct b; reflexivity. Qed.




(** C7.  The code at the failing input: when the bus delivers the bytes
    0x00, 0x80 for the eCO2 register, whose unsigned little-endian value
    is 32768, [ECO2] (and likewise [TVOC]) returns -32768. *)
Theorem ECO2_reads_0x8000_as_negative :
  bus_read healthy_bus [] ENS160_I2CADDR ENS160_CMD_ECO2 2
    = Resolved (2, [x00; x80]) /\
  le_unsigned [x00; x80] = 32768 /\
  ECO2 healthy_bus [] =
    ([ReadBlock ENS160_I2CADDR ENS160_CMD_ECO2 2], Returned (-32768)) /\
  TVOC healthy_bus [] =
    ([ReadBlock ENS160_I2CADDR ENS160_CMD_TVOC 2], Returned (-32768)).
Proof. repeat split. Qed.

(** ** getMode *)

(** The mode byte is decoded as a two's complement number. *)
Lemma getMode_run (bus : Bus) (h : history) (n : Z) (b : byte) (rest : list byte) :
  bus_read bus h ENS160_I2CADDR ENS160_CMD_OPMODE 1 = Resolved (n, b :: rest) ->
  getMode bus h =
    (h ++ [ReadBlock ENS160_I2CADDR ENS160_CMD_OPMODE 1],
     Returned (if byte_to_Z b <? 128 then byte_to_Z b else byte_to_Z b - 256)).
Proof.
  intros Hread.
  unfold getMode.
  rewrite bind_read, Hread.
  cbn [buffer].
  change (firstn (Z.to_nat 1) ((b :: rest) ++ Buffer_alloc 1)) with [b].
  unfold readInt8.
  rewrite readIntLE_1.
  reflexivity.
Qed.

(** C8.  The code at the failing input: when the mode register reads back
    the Reset byte 0xF0, [getMode] returns -16, and the value it returns
    is not accepted by [setMode]. *)
Theorem getMode_reads_0xF0_as_negative :
  bus_read reset_mode_bus [] ENS160_I2CADDR ENS160_CMD_OPMODE 1
    = Resolved (1, [xf0]) /\
  byte_to_Z xf0 = MODE_RESET /\
  getMode reset_mode_bus [] =
    ([ReadBlock ENS160_I2CADDR ENS160_CMD_OPMODE 1], Returned (-16)) /\
  setMode reset_mode_bus (-16) [] = ([], Threw (InvalidMode (-16))).
Proof. repeat split. Qed.

(** ** Identity failure during init *)

(** C9.  The code at the failing input: when another part answers the
    identity read with the bytes 0x00, 0x00, [init] stops after that read
    and throws the error of [check], not the error of its own branch. *)
Theorem init_identity_failure_throws_IdentityMismatch :
  bus_read stranger_bus
    [Sleep 20; WriteBlock ENS160_I2CADDR ENS160_CMD_OPMODE 1 [xf0]; Sleep 10]
    ENS160_I2CADDR ENS160_CMD_PARTID 2 = Resolved (2, [x00; x00]) /\
  init stranger_bus [] =
    ([Sleep 20; WriteBlock ENS160_I2CADDR ENS160_CMD_OPMODE 1 [xf0]; Sleep 10;
      ReadBlock ENS160_I2CADDR ENS160_CMD_PARTID 2],
     Threw IdentityMismatch) /\
  check stranger_bus [] =
    ([ReadBlock ENS160_I2CADDR ENS160_CMD_PARTID 2], Threw IdentityMismatch).
Proof. repeat split. Qed.

(** ** Compensation encoders *)

Lemma hex_value_hex_digit (d : Z) :
  0 <= d < 16 -> hex_value (hex_digit d) = Some d.
Proof.
  intros Hd.
  assert (Hcases : d = 0 \/ d = 1 \/ d = 2 \/ d = 3 \/ d = 4 \/ d = 5 \/
                   d = 6 \/ d = 7 \/ d = 8 \/ d = 9 \/ d = 10 \/ d = 11 \/
                   d = 12 \/ d = 13 \/ d = 14 \/ d = 15) by lia.
  repeat (destruct Hcases as [->|Hcases]; [reflexivity|]).
  subst d. reflexivity.
Qed.

Lemma hex_digits_four (k : Z) :
  0x1000 <= k <= 0xFFFF ->
  hex_digits k =
    [ hex_digit ((k / 4096) mod 16); hex_digit ((k / 256) mod 16);
      hex_digit ((k / 16) mod 16); hex_digit (k mod 16) ].
Proof.
  intros Hk.
  unfold hex_digits.
  assert (Hlog : Z.log2 k / 4 + 1 = 4).
  { pose proof (Z.log2_le_mono 0x1000 k ltac:(lia)) as Hlow.
    pose proof (Z.log2_le_mono k 0xFFFF ltac:(lia)) as Hhigh.
    change (Z.log2 0x1000) with 12 in Hlow.
    change (Z.log2 0xFFFF) with 15 in Hhigh.
    assert (Hq : Z.log2 k / 4 = 3).
    { symmetry. apply Z.div_unique with (r := Z.log2 k - 12); lia. }
    rewrite Hq. reflexivity. }
  rewrite Hlog.
  change (rev (seq 0 (Z.to_nat 4))) with [3%nat; 2%nat; 1%nat; 0%nat].
  cbn [map].
  change (16 ^ Z.of_nat 3) with 4096.
  change (16 ^ Z.of_nat 2) with 256.
  change (16 ^ Z.of_nat 1) with 16.
  change (16 ^ Z.of_nat 0) with 1.
  rewrite Z.div_1_r.
  reflexivity.
Qed.

Lemma hex_nibbles_high (k : Z) :
  0 <= k <= 0xFFFF -> 16 * ((k / 4096) mod 16) + (k / 256) mod 16 = k / 256.
Proof.
  intros Hk.
  pose proof (Z.div_mod k 4096 ltac:(lia)) as E1.
  pose proof (Z.mod_pos_bound k 4096 ltac:(lia)) as B1.
  pose proof (Z.div_mod k 256 ltac:(lia)) as E2.
  pose proof (Z.mod_pos_bound k 256 ltac:(lia)) as B2.
  pose proof (Z.div_mod (k / 256) 16 ltac:(lia)) as E3.
  pose proof (Z.mod_pos_bound (k / 256) 16 ltac:(lia)) as B3.
  assert (H4096 : k / 4096 = k / 256 / 16).
  { rewrite Z.div_div by lia. reflexivity. }
  rewrite H4096.
  rewrite (Z.mod_small (k / 256 / 16) 16).
  - lia.
  - split.
    + apply Z.div_pos; [apply Z.div_pos; lia | lia].
    + apply Z.div_lt_upper_bound; [lia|].
      apply Z.div_lt_upper_bound; lia.
Qed.

Lemma hex_nibbles_low (k : Z) :
  16 * ((k / 16) mod 16) + k mod 16 = k mod 256.
Proof.
  change 256 with (16 * 16).
  rewrite Z.rem_mul_r by lia.
  lia.
Qed.

(** In the four-digit range the hexadecimal detour is the big-endian
    layout. *)
Lemma hex_round_trip_four_digits (k : Z) :
  0x1000 <= k <= 0xFFFF ->
  Buffer_from_hex (Number_toString16 (IInt k)) = big_endian_16 k.
Proof.
  intros Hk.
  unfold Buffer_from_hex, Number_toString16.
  replace (k <? 0) with false by (symmetry; apply Z.ltb_ge; lia).
  rewrite list_ascii_of_string_of_list_ascii.
  rewrite hex_digits_four by exact Hk.
  cbn [hex_decode].
  rewrite !hex_value_hex_digit by (apply Z.mod_pos_bound; lia).
  rewrite hex_nibbles_high by lia.
  rewrite hex_nibbles_low.
  reflexivity.
Qed.

Lemma big_endian_16_length (k : Z) : Buffer_length (big_endian_16 k) = 2.
Proof. reflexivity. Qed.

(** Whole-number inputs that fall in the four-digit range: humidities
    from 8 to 100 and temperatures from -209 to 750. *)
Lemma integer_humidity_register (z : Z) :
  8 <= z <= 100 ->
  Math_ceil (num_mul (num_of_Z z) (num_of_Z 512)) = IInt (512 * z) /\
  0x1000 <= 512 * z <= 0xFFFF.
Proof.
  intros Hz.
  split; [|lia].
  assert (Hall : forallb
            (fun n =>
               match Math_ceil (num_mul (num_of_Z (Z.of_nat n)) (num_of_Z 512)) with
               | IInt k => k =? 512 * Z.of_nat n
               | _ => false
               end) (seq 8 93) = true) by (vm_compute; reflexivity).
  rewrite forallb_forall in Hall.
  specialize (Hall (Z.to_nat z)).
  rewrite Z2Nat.id in Hall by lia.
  destruct (Math_ceil _) as [| |k]; try (discriminate Hall; apply in_seq; lia).
  f_equal.
  apply Z.eqb_eq, Hall, in_seq.
  lia.
Qed.

Lemma integer_temperature_register (z : Z) :
  -209 <= z <= 750 ->
  Math_ceil (num_mul (num_add (num_of_Z z) lit_273_15) (num_of_Z 64))
    = IInt (64 * z + 17482) /\
  0x1000 <= 64 * z + 17482 <= 0xFFFF.
Proof.
  intros Hz.
  split; [|lia].
  assert (Hall : forallb
            (fun n =>
               let t := Z.of_nat n - 209 in
               match Math_ceil (num_mul (num_add (num_of_Z t) lit_273_15)
                                        (num_of_Z 64)) with
               | IInt k => k =? 64 * t + 17482
               | _ => false
               end) (seq 0 960) = true) by (vm_compute; reflexivity).
  rewrite forallb_forall in Hall.
  specialize (Hall (Z.to_nat (z + 209))).
  cbv zeta in Hall.
  rewrite Z2Nat.id in Hall by lia.
  replace (z + 209 - 209) with z in Hall by lia.
  destruct (Math_ceil _) as [| |k]; try (discriminate Hall; apply in_seq; lia).
  f_equal.
  apply Z.eqb_eq, Hall, in_seq.
  lia.
Qed.

(** C3, as the claim states it, fails twice.  At 25 degrees and at 50 %
    the rounded values are 19082 = 0x4A8A and 25600 = 0x6400, and the
    bytes on the bus are the high byte first, not the little-endian pair.
    At 1/128 degree the scaled value is 17482.1: rounding to nearest gives
    17482 = 0x444A while the code writes 17483 = 0x444B. *)
Lemma compensation_is_not_rounded_little_endian :
  ( (exists q : Q, num_value (num_of_Z 25) = Some q /\ q == 25)%Q /\
    spec_temperature_bytes 25 = [x8a; x4a] /\
    fst (temperature_compensation healthy_bus (num_of_Z 25) []) =
      [WriteBlock ENS160_I2CADDR ENS160_CMD_TEMPIN 2 [x4a; x8a]] ) /\
  ( (exists q : Q, num_value (num_of_Z 50) = Some q /\ q == 50)%Q /\
    spec_humidity_bytes 50 = [x00; x64] /\
    fst (humidity_compensation healthy_bus (num_of_Z 50) []) =
      [WriteBlock ENS160_I2CADDR ENS160_CMD_RHIN 2 [x64; x00]] ) /\
  ( (exists q : Q,
       num_value (binary_normalize prec emax 1 (-7) false) = Some q /\
       q == 1 # 128)%Q /\
    spec_round (((1 # 128) + (27315 # 100)) * 64) = 17482 /\
    Math_ceil
      (num_mul (num_add (binary_normalize prec emax 1 (-7) false) lit_273_15)
               (num_of_Z 64)) = IInt 17483 /\
    fst (temperature_compensation healthy_bus
           (binary_normalize prec emax 1 (-7) false) []) =
      [WriteBlock ENS160_I2CADDR ENS160_CMD_TEMPIN 2 [x44; x4b]] ) /\
  [x4a; x8a] <> [x8a; x4a] /\ [x64; x00] <> [x00; x64].
Proof.
  assert (Hvalue : forall (x : number) (v : Q),
             match num_value x with
             | Some q => Qeq_bool q v = true
             | None => False
             end ->
             exists q : Q, num_value x = Some q /\ (q == v)%Q).
  { intros x v Hx.
    destruct (num_value x) as [q|]; [|contradiction].
    exists q. split; [reflexivity | apply Qeq_bool_eq; exact Hx]. }
  split; [|split; [|split; [|split]]].
  - split; [apply Hvalue; vm_compute; reflexivity|].
    split; vm_compute; reflexivity.
  - split; [apply Hvalue; vm_compute; reflexivity|].
    split; vm_compute; reflexivity.
  - split; [apply Hvalue; vm_compute; reflexivity|].
    split; [vm_compute; reflexivity|].
    split; vm_compute; reflexivity.
  - discriminate.
  - discriminate.
Qed.

(** C3, amended.  Let [kt] be the ceiling of [(temp_c + 273.15) * 64] and
    [kh] the ceiling of [humidity * 512], both as the code evaluates them
    in double precision.  When they lie between 0x1000 and 0xFFFF (four
    hexadecimal digits), [temperature_compensation] issues exactly one bus
    operation, the write of the 2-byte big-endian encoding of [kt] to the
    temperature-input register, and [humidity_compensation] the write of
    the 2-byte big-endian encoding of [kh] to the humidity-input
    register. *)
Theorem compensation_writes_big_endian_ceiling
    (bus : Bus) (h : history) (temp_c humidity : number) (kt kh : Z) :
  (Math_ceil (num_mul (num_add temp_c lit_273_15) (num_of_Z 64)) = IInt kt ->
   0x1000 <= kt <= 0xFFFF ->
   fst (temperature_compensation bus temp_c h) =
     h ++ [WriteBlock ENS160_I2CADDR ENS160_CMD_TEMPIN 2 (big_endian_16 kt)]) /\
  (Math_ceil (num_mul humidity (num_of_Z 512)) = IInt kh ->
   0x1000 <= kh <= 0xFFFF ->
   fst (humidity_compensation bus humidity h) =
     h ++ [WriteBlock ENS160_I2CADDR ENS160_CMD_RHIN 2 (big_endian_16 kh)]).
Proof.
  unfold temperature_compensation, humidity_compensation.
  cbv zeta.
  split; intros Hk Rk; rewrite Hk;
    rewrite hex_round_trip_four_digits by exact Rk;
    rewrite big_endian_16_length, bind_write;
    destruct (bus_write bus h _ _ _ _); reflexivity.
Qed.

Lemma compensation_writes_big_endian_ceiling_witness :
  fst (temperature_compensation healthy_bus (num_of_Z 25) []) =
    [] ++ [WriteBlock ENS160_I2CADDR ENS160_CMD_TEMPIN 2 (big_endian_16 19082)] /\
  fst (humidity_compensation healthy_bus (num_of_Z 50) []) =
    [] ++ [WriteBlock ENS160_I2CADDR ENS160_CMD_RHIN 2 (big_endian_16 25600)].
Proof.
  destruct (compensation_writes_big_endian_ceiling healthy_bus []
              (num_of_Z 25) (num_of_Z 50) 19082 25600) as [Ht Hh].
  split.
  - apply Ht; [vm_compute; reflexivity | lia].
  - apply Hh; [vm_compute; reflexivity | lia].
Defined.

(** ** The number model *)

(** [273.15] denotes the correctly rounded quotient of 27315 by 100. *)
Lemma lit_273_15_nearest :
  SFdiv prec emax (num_of_Z 27315) (num_of_Z 100) = lit_273_15.
Proof. vm_compute. reflexivity. Qed.

(** [Math_ceil] is the ceiling of the exact value of a finite number. *)
Lemma Math_ceil_is_ceiling (x : number) (q : Q) :
  num_value x = Some q -> Math_ceil x = IInt (Qceiling q).
Proof.
  destruct x as [s|s| |s m e]; cbn [num_value]; intros H;
    try discriminate H; injection H as <-.
  - reflexivity.
  - unfold Math_ceil.
    set (a := cond_Zopp s (Z.pos m)).
    destruct (0 <=? e) eqn:He.
    + apply Z.leb_le in He.
      f_equal.
      change 2%Q with (inject_Z 2).
      rewrite <- Zpower_Qpower by exact He.
      rewrite <- inject_Z_mult.
      rewrite Qceiling_Z.
      reflexivity.
    + apply Z.leb_gt in He.
      destruct e as [|p|p]; try lia.
      f_equal.
      change (- Z.neg p)%Z with (Z.pos p).
      assert (Hq : (inject_Z a * 2 ^ Z.neg p == a # (2 ^ p)%positive)%Q).
      { rewrite (Qmake_Qdiv a (2 ^ p)).
        rewrite Pos2Z.inj_pow.
        rewrite Zpower_Qpower by lia.
        reflexivity. }
      rewrite Hq.
      rewrite <- Pos2Z.inj_pow.
      reflexivity.
Qed.

(** * Further properties of the driver *)

(** ** clear_command and reset *)

(** X1.  [clear_command] writes NOP first and ClearGPR second, both to
    the command register: ClearGPR is written only after the bus accepted
    NOP, the 10 ms wait happens only after both were accepted, and a
    rejected write ends the operation with the bus error. *)
Theorem clear_command_writes_nop_then_clear (bus : Bus) (h : history) :
  let nop := WriteBlock ENS160_I2CADDR ENS160_CMD_COMMAND 1 [byte_of_Z COMMAND_NOP] in
  let clear := WriteBlock ENS160_I2CADDR ENS160_CMD_COMMAND 1 [byte_of_Z COMMAND_CLRGPR] in
  clear_command bus h =
    match bus_write bus h ENS160_I2CADDR ENS160_CMD_COMMAND 1
                    [byte_of_Z COMMAND_NOP] with
    | Rejected msg => (h ++ [nop], Threw (BusError msg))
    | Resolved _ =>
        match bus_write bus (h ++ [nop]) ENS160_I2CADDR ENS160_CMD_COMMAND 1
                        [byte_of_Z COMMAND_CLRGPR] with
        | Rejected msg => (h ++ [nop; clear], Threw (BusError msg))
        | Resolved _ => (h ++ [nop; clear; Sleep 10], Returned true)
        end
    end.
Proof.
  cbv zeta.
  unfold clear_command.
  change (Buffer_from_array [COMMAND_NOP]) with [byte_of_Z COMMAND_NOP].
  change (Buffer_from_array [COMMAND_CLRGPR]) with [byte_of_Z COMMAND_CLRGPR].
  rewrite bind_write.
  destruct (bus_write bus h _ _ _ _); [|reflexivity].
  rewrite bind_write.
  destruct (bus_write bus _ _ _ _ _).
  - rewrite bind_sleep. unfold ret.
    rewrite <- !app_assoc. reflexivity.
  - rewrite <- app_assoc. reflexivity.
Qed.

(** X2.  [reset] issues exactly one bus write, the byte 0xF0 to the mode
    register; it never fails the mode check, so the only error it can end
    with is the one of a rejected write. *)
Theorem reset_writes_0xF0_once (bus : Bus) (h : history) :
  reset bus h =
    match bus_write bus h ENS160_I2CADDR ENS160_CMD_OPMODE 1 [xf0] with
    | Resolved _ =>
        (h ++ [WriteBlock ENS160_I2CADDR ENS160_CMD_OPMODE 1 [xf0]; Sleep 10],
         Returned true)
    | Rejected msg =>
        (h ++ [WriteBlock ENS160_I2CADDR ENS160_CMD_OPMODE 1 [xf0]],
         Threw (BusError msg))
    end.
Proof.
  unfold reset, bind.
  rewrite (setMode_valid bus MODE_RESET h eq_refl).
  cbv zeta.
  change (byte_of_Z MODE_RESET) with xf0.
  destruct (bus_write bus h _ _ _ _); reflexivity.
Qed.

(** ** setMode followed by getMode *)

(** X3.  On a device that accepts the mode write and reads the written
    byte back, [getMode] after [setMode mode] returns [mode] for Sleep,
    Idle and Standard, and -16 for Reset (0xF0). *)
Theorem getMode_after_setMode
    (bus : Bus) (h : history) (mode n : Z) (rest : list byte) :
  existsb (Z.eqb mode) VALID_MODES = true ->
  bus_write bus h ENS160_I2CADDR ENS160_CMD_OPMODE 1 [byte_of_Z mode]
    = Resolved tt ->
  bus_read bus
    (h ++ [WriteBlock ENS160_I2CADDR ENS160_CMD_OPMODE 1 [byte_of_Z mode];
           Sleep 10])
    ENS160_I2CADDR ENS160_CMD_OPMODE 1 = Resolved (n, byte_of_Z mode :: rest) ->
  (_ <- setMode bus mode ;; getMode bus) h =
    (h ++ [WriteBlock ENS160_I2CADDR ENS160_CMD_OPMODE 1 [byte_of_Z mode];
           Sleep 10; ReadBlock ENS160_I2CADDR ENS160_CMD_OPMODE 1],
     Returned (if mode =? MODE_RESET then -16 else mode)).
Proof.
  intros Hvalid Hwrite Hread.
  unfold bind at 1.
  rewrite (setMode_valid bus mode h Hvalid).
  cbv zeta.
  rewrite Hwrite.
  rewrite (getMode_run bus _ n (byte_of_Z mode) rest Hread).
  rewrite <- app_assoc.
  apply VALID_MODES_spec in Hvalid.
  destruct Hvalid as [->|[->|[->| ->]]]; reflexivity.
Qed.

Lemma getMode_after_setMode_witness :
  (_ <- setMode healthy_bus MODE_IDLE ;; getMode healthy_bus) [] =
    ([WriteBlock ENS160_I2CADDR ENS160_CMD_OPMODE 1 [byte_of_Z MODE_IDLE];
      Sleep 10; ReadBlock ENS160_I2CADDR ENS160_CMD_OPMODE 1],
     Returned MODE_IDLE).
Proof.
  apply (getMode_after_setMode healthy_bus [] MODE_IDLE 1 []); reflexivity.
Defined.

(** ** read_gpr and firmware_version *)

Lemma filled_buffer_length (data : list byte) (len : Z) :
  0 <= len ->
  List.length (firstn (Z.to_nat len) (data ++ Buffer_alloc len)) = Z.to_nat len.
Proof.
  intros Hlen.
  rewrite length_firstn, length_app.
  unfold Buffer_alloc.
  rewrite repeat_length.
  lia.
Qed.

Lemma filled_buffer_nth (data : list byte) (len : Z) (i : nat) :
  (i < Z.to_nat len)%nat ->
  nth i (firstn (Z.to_nat len) (data ++ Buffer_alloc len)) x00 = nth i data x00.
Proof.
  intros Hi.
  rewrite nth_firstn.
  replace (i <? Z.to_nat len)%nat with true by (symmetry; apply Nat.ltb_lt; exact Hi).
  destruct (Nat.lt_ge_cases i (List.length data)) as [Hin|Hout].
  - apply app_nth1. exact Hin.
  - rewrite app_nth2 by exact Hout.
    rewrite (nth_overflow data) by exact Hout.
    unfold Buffer_alloc.
    apply nth_repeat.
Qed.

(** X4.  [read_gpr] issues one read of 8 bytes from the register bank and,
    when the read resolves, returns a buffer of exactly 8 bytes however
    many bytes the bus delivered: byte [i] is the [i]-th delivered byte,
    or zero when fewer were delivered. *)
Theorem read_gpr_returns_eight_bytes
    (bus : Bus) (h : history) (n : Z) (data : list byte) :
  bus_read bus h ENS160_I2CADDR ENS160_CMD_READGPR 8 = Resolved (n, data) ->
  exists gpr : Buffer,
    read_gpr bus h =
      (h ++ [ReadBlock ENS160_I2CADDR ENS160_CMD_READGPR 8], Returned gpr) /\
    List.length gpr = 8%nat /\
    forall i : nat, (i < 8)%nat -> nth i gpr x00 = nth i data x00.
Proof.
  intros Hread.
  exists (firstn (Z.to_nat 8) (data ++ Buffer_alloc 8)).
  split; [|split].
  - unfold read_gpr.
    rewrite bind_read, Hread.
    reflexivity.
  - apply (filled_buffer_length data 8). lia.
  - intros i Hi.
    apply filled_buffer_nth.
    exact Hi.
Qed.

Lemma read_gpr_returns_eight_bytes_witness :
  exists gpr : Buffer,
    read_gpr healthy_bus [] =
      ([ReadBlock ENS160_I2CADDR ENS160_CMD_READGPR 8], Returned gpr) /\
    List.length gpr = 8%nat /\
    forall i : nat, (i < 8)%nat ->
      nth i gpr x00 = nth i [x00; x00; x00; x00; x01; x04; x02; x00] x00.
Proof.
  apply (read_gpr_returns_eight_bytes healthy_bus [] 8
           [x00; x00; x00; x00; x01; x04; x02; x00]).
  reflexivity.
Defined.

Lemma firmware_query_run (bus : Bus) (h : history) :
  accepts_writes bus ->
  firmware_query bus h =
    (h ++ skipn 1 firmware_query_events,
     match bus_read bus (h ++ firstn 7 (skipn 1 firmware_query_events))
                    ENS160_I2CADDR ENS160_CMD_READGPR 8 with
     | Resolved (_, data) =>
         Returned (firstn (Z.to_nat 8) (data ++ Buffer_alloc 8))
     | Rejected msg => Threw (BusError msg)
     end).
Proof.
  intros Haccept.
  unfold firmware_query, clear_command, read_gpr.
  rewrite (setMode_constant bus MODE_IDLE eq_refl).
  change (byte_of_Z MODE_IDLE) with x01.
  change (Buffer_from_array [COMMAND_NOP]) with [x00].
  change (Buffer_from_array [COMMAND_CLRGPR]) with [xcc].
  change (Buffer_from_array [COMMAND_GETAPPVER]) with [x0e].
  repeat first
    [ rewrite bind_bind
    | rewrite bind_ret
    | rewrite bind_sleep
    | rewrite bind_write, Haccept ].
  rewrite bind_read.
  cbn [firmware_query_events skipn firstn].
  rewrite <- !app_assoc.
  cbn [app].
  destruct (bus_read bus _ _ _ _) as [[n data]|msg]; reflexivity.
Qed.

(** X5.  On a bus that accepts every write, when the mode register reads
    Sleep, Idle or Standard and the register bank can be read,
    [firmware_version] performs the whole exchange, ends by writing the
    mode byte it read at the start back to the mode register, and returns
    bytes 4, 5 and 6 of the bank in decimal, joined by dots. *)
Theorem firmware_version_restores_saved_mode
    (bus : Bus) (h : history) (n n' : Z) (b : byte) (rest data : list byte) :
  accepts_writes bus ->
  bus_read bus h ENS160_I2CADDR ENS160_CMD_OPMODE 1 = Resolved (n, b :: rest) ->
  byte_to_Z b <= 2 ->
  bus_read bus (h ++ firstn 8 firmware_query_events)
           ENS160_I2CADDR ENS160_CMD_READGPR 8 = Resolved (n', data) ->
  firmware_version bus h =
    (h ++ firmware_query_events ++
       [WriteBlock ENS160_I2CADDR ENS160_CMD_OPMODE 1 [b]; Sleep 10],
     Returned (Number_toString10 (byte_to_Z (nth 4 data x00)) ++ "." ++
               Number_toString10 (byte_to_Z (nth 5 data x00)) ++ "." ++
               Number_toString10 (byte_to_Z (nth 6 data x00)))%string).
Proof.
  intros Haccept Hmode Hb Hgpr.
  pose proof (byte_to_Z_range b) as Rb.
  rewrite firmware_version_run.
  unfold bind at 1.
  rewrite (getMode_run bus h n b rest Hmode).
  replace (byte_to_Z b <? 128) with true by (symmetry; apply Z.ltb_lt; lia).
  unfold bind at 1.
  rewrite (firmware_query_run bus _ Haccept).
  replace ((h ++ [ReadBlock ENS160_I2CADDR ENS160_CMD_OPMODE 1]) ++
           firstn 7 (skipn 1 firmware_query_events))
    with (h ++ firstn 8 firmware_query_events)
    by (rewrite <- app_assoc; reflexivity).
  rewrite Hgpr.
  unfold bind.
  rewrite setMode_valid
    by (apply VALID_MODES_spec; unfold byte_to_Z in *; lia).
  cbv zeta.
  rewrite Haccept, byte_of_to_Z.
  unfold ret, version_string, Buffer_get.
  rewrite !filled_buffer_nth by (cbn; lia).
  rewrite <- !app_assoc.
  reflexivity.
Qed.

Lemma firmware_version_restores_saved_mode_witness :
  firmware_version healthy_bus [] =
    ([] ++ firmware_query_events ++
       [WriteBlock ENS160_I2CADDR ENS160_CMD_OPMODE 1 [x02]; Sleep 10],
     Returned "1.4.2"%string).
Proof.
  apply (firmware_version_restores_saved_mode healthy_bus [] 1 8 x02 []
           [x00; x00; x00; x00; x01; x04; x02; x00]).
  - intros h addr cmd len buf. reflexivity.
  - reflexivity.
  - vm_compute. discriminate.
  - reflexivity.
Defined.

(** X6.  On a bus that accepts every write, when the mode register reads
    a byte that is not Sleep, Idle or Standard (Reset 0xF0 included),
    [firmware_version] runs the exchange up to the read of the register
    bank and then throws [InvalidMode] with the byte read as a signed
    number: nothing is written after the read, so the last mode written
    is Idle. *)
Theorem firmware_version_invalid_saved_mode
    (bus : Bus) (h : history) (n n' : Z) (b : byte) (rest data : list byte) :
  accepts_writes bus ->
  bus_read bus h ENS160_I2CADDR ENS160_CMD_OPMODE 1 = Resolved (n, b :: rest) ->
  3 <= byte_to_Z b ->
  bus_read bus (h ++ firstn 8 firmware_query_events)
           ENS160_I2CADDR ENS160_CMD_READGPR 8 = Resolved (n', data) ->
  firmware_version bus h =
    (h ++ firmware_query_events,
     Threw (InvalidMode (if byte_to_Z b <? 128 then byte_to_Z b
                         else byte_to_Z b - 256))) /\
  mode_writes firmware_query_events = [[byte_of_Z MODE_IDLE]].
Proof.
  intros Haccept Hmode Hb Hgpr.
  split; [|reflexivity].
  pose proof (byte_to_Z_range b) as Rb.
  rewrite firmware_version_run.
  unfold bind at 1.
  rewrite (getMode_run bus h n b rest Hmode).
  unfold bind at 1.
  rewrite (firmware_query_run bus _ Haccept).
  replace ((h ++ [ReadBlock ENS160_I2CADDR ENS160_CMD_OPMODE 1]) ++
           firstn 7 (skipn 1 firmware_query_events))
    with (h ++ firstn 8 firmware_query_events)
    by (rewrite <- app_assoc; reflexivity).
  rewrite Hgpr.
  unfold bind.
  rewrite setMode_invalid.
  - rewrite <- app_assoc. reflexivity.
  - destruct (existsb _ VALID_MODES) eqn:E; [|reflexivity].
    apply VALID_MODES_spec in E.
    destruct (byte_to_Z b <? 128) eqn:Hsign.
    + lia.
    + apply Z.ltb_ge in Hsign. lia.
Qed.

Lemma firmware_version_invalid_saved_mode_witness :
  firmware_version reset_mode_bus [] =
    ([] ++ firmware_query_events, Threw (InvalidMode (-16))) /\
  mode_writes firmware_query_events = [[byte_of_Z MODE_IDLE]].
Proof.
  apply (firmware_version_invalid_saved_mode reset_mode_bus [] 1 8 xf0 []
           [x00; x00; x00; x00; x01; x04; x02; x00]).
  - intros h addr cmd len buf. reflexivity.
  - reflexivity.
  - vm_compute. discriminate.
  - reflexivity.
Defined.

(** ** Measurement reads: signed values, short reads *)

Lemma filled_buffer_1 (data : list byte) :
  exists b0 : byte, firstn (Z.to_nat 1) (data ++ Buffer_alloc 1) = [b0].
Proof.
  destruct data as [|d0 rest]; eexists; reflexivity.
Qed.

Lemma readIntLE_two_bytes (b0 b1 : byte) (n : Z) :
  match readIntLE [b0; b1] 0 n with
  | Returned v =>
      (n = 1 /\ v = if byte_to_Z b0 <? 128 then byte_to_Z b0
                    else byte_to_Z b0 - 256) \/
      (n = 2 /\ v = if le_unsigned [b0; b1] <? 32768 then le_unsigned [b0; b1]
                    else le_unsigned [b0; b1] - 65536)
  | Threw e => e = RangeError /\ (n < 1 \/ 2 < n)
  end.
Proof.
  unfold readIntLE.
  destruct ((1 <=? n) && (n <=? 6) && (0 <=? 0)
            && (0 + n <=? Buffer_length [b0; b1])) eqn:Hcheck.
  - rewrite !andb_true_iff, !Z.leb_le in Hcheck.
    change (Buffer_length [b0; b1]) with 2 in Hcheck.
    assert (Hn : n = 1 \/ n = 2) by lia.
    destruct Hn as [-> | ->].
    + left. split; [reflexivity|].
      destruct b0; reflexivity.
    + right. split; reflexivity.
  - split; [reflexivity|].
    rewrite !andb_false_iff, !Z.leb_gt in Hcheck.
    change (Buffer_length [b0; b1]) with 2 in Hcheck.
    lia.
Qed.

Lemma readIntLE_one_byte (b0 : byte) (n : Z) :
  match readIntLE [b0] 0 n with
  | Returned v =>
      n = 1 /\ v = if byte_to_Z b0 <? 128 then byte_to_Z b0
                   else byte_to_Z b0 - 256
  | Threw e => e = RangeError /\ (n < 1 \/ 1 < n)
  end.
Proof.
  unfold readIntLE.
  destruct ((1 <=? n) && (n <=? 6) && (0 <=? 0)
            && (0 + n <=? Buffer_length [b0])) eqn:Hcheck.
  - rewrite !andb_true_iff, !Z.leb_le in Hcheck.
    change (Buffer_length [b0]) with 1 in Hcheck.
    assert (Hn : n = 1) by lia.
    subst n.
    split; [reflexivity|].
    destruct b0; reflexivity.
  - split; [reflexivity|].
    rewrite !andb_false_iff, !Z.leb_gt in Hcheck.
    change (Buffer_length [b0]) with 1 in Hcheck.
    lia.
Qed.

Ltac two_byte_read_cases bus h cmd :=
  rewrite bind_read;
  destruct (bus_read bus h ENS160_I2CADDR cmd 2) as [[n data]|msg];
  [ cbn [buffer bytesRead];
    change (Z.to_nat 2) with 2%nat;
    destruct (filled_buffer_2 data) as [b0 [b1 Hbuf]];
    rewrite Hbuf;
    unfold lift; cbn [snd];
    pose proof (readIntLE_two_bytes b0 b1 n) as Hcases;
    pose proof (byte_to_Z_range b0) as R0;
    pose proof (byte_to_Z_range b1) as R1;
    destruct (readIntLE [b0; b1] 0 n) as [v|e];
    [ cbn [le_unsigned] in Hcases;
      destruct Hcases as [[_ ->]|[_ ->]];
      match goal with
      | |- context [if ?c then _ else _] =>
          let Hc := fresh "Hc" in
          destruct c eqn:Hc;
          first [apply Z.ltb_lt in Hc | apply Z.ltb_ge in Hc]; lia
      end
    | destruct Hcases as [-> _]; exact I ]
  | exact I ].

(** X7.  Whatever the bus does, a value returned by [ECO2] or [TVOC]
    lies between -32768 and 32767 and a value returned by [AQI] between
    -128 and 127; the three operations end either with such a value, with
    the error of a rejected read, or with the range error of the buffer
    read. *)
Theorem measurements_are_signed_values (bus : Bus) :
  ensures (fun v => -128 <= v <= 127) is_read_error (AQI bus) /\
  ensures (fun v => -32768 <= v <= 32767) is_read_error (ECO2 bus) /\
  ensures (fun v => -32768 <= v <= 32767) is_read_error (TVOC bus).
Proof.
  split; [|split]; intros h.
  - unfold AQI.
    rewrite bind_read.
    destruct (bus_read bus h ENS160_I2CADDR ENS160_CMD_AQI 1)
      as [[n data]|msg]; [|exact I].
    cbn [buffer bytesRead].
    destruct (filled_buffer_1 data) as [b0 Hbuf].
    rewrite Hbuf.
    unfold lift; cbn [snd].
    pose proof (readIntLE_one_byte b0 n) as Hcases.
    pose proof (byte_to_Z_range b0) as R0.
    destruct (readIntLE [b0] 0 n) as [v|e].
    + destruct Hcases as [_ ->].
      destruct (byte_to_Z b0 <? 128) eqn:Hc;
        first [apply Z.ltb_lt in Hc | apply Z.ltb_ge in Hc]; lia.
    + destruct Hcases as [-> _]. exact I.
  - unfold ECO2. two_byte_read_cases bus h ENS160_CMD_ECO2.
  - unfold TVOC. two_byte_read_cases bus h ENS160_CMD_TVOC.
Qed.



(** X9.  The measurement reads decode as many bytes as the transport
    reports.  When it reports none, or more than were asked for, [AQI],
    [ECO2] and [TVOC] throw the range error of the buffer read; when it
    reports one byte of the two asked for, [ECO2] and [TVOC] return the
    first byte alone as a signed 8-bit value. *)
Theorem measurements_follow_reported_length
    (bus : Bus) (h : history) (n : Z) (data : list byte) :
  (bus_read bus h ENS160_I2CADDR ENS160_CMD_AQI 1 = Resolved (n, data) ->
   n < 1 \/ 1 < n ->
   AQI bus h =
     (h ++ [ReadBlock ENS160_I2CADDR ENS160_CMD_AQI 1], Threw RangeError)) /\
  (bus_read bus h ENS160_I2CADDR ENS160_CMD_ECO2 2 = Resolved (n, data) ->
   (n < 1 \/ 2 < n ->
    ECO2 bus h =
      (h ++ [ReadBlock ENS160_I2CADDR ENS160_CMD_ECO2 2], Threw RangeError)) /\
   (n = 1 ->
    ECO2 bus h =
      (h ++ [ReadBlock ENS160_I2CADDR ENS160_CMD_ECO2 2],
       Returned (if byte_to_Z (nth 0 data x00) <? 128
                 then byte_to_Z (nth 0 data x00)
                 else byte_to_Z (nth 0 data x00) - 256)))) /\
  (bus_read bus h ENS160_I2CADDR ENS160_CMD_TVOC 2 = Resolved (n, data) ->
   (n < 1 \/ 2 < n ->
    TVOC bus h =
      (h ++ [ReadBlock ENS160_I2CADDR ENS160_CMD_TVOC 2], Threw RangeError)) /\
   (n = 1 ->
    TVOC bus h =
      (h ++ [ReadBlock ENS160_I2CADDR ENS160_CMD_TVOC 2],
       Returned (if byte_to_Z (nth 0 data x00) <? 128
                 then byte_to_Z (nth 0 data x00)
                 else byte_to_Z (nth 0 data x00) - 256)))).
Proof.
  assert (Htwo : forall b0 b1 : byte,
             (n < 1 \/ 2 < n -> readIntLE [b0; b1] 0 n = Threw RangeError) /\
             (n = 1 ->
              readIntLE [b0; b1] 0 n =
                Returned (if byte_to_Z b0 <? 128 then byte_to_Z b0
                          else byte_to_Z b0 - 256))).
  { intros b0 b1.
    pose proof (readIntLE_two_bytes b0 b1 n) as Hcases.
    destruct (readIntLE [b0; b1] 0 n) as [v|e].
    - destruct Hcases as [[Hn ->]|[Hn ->]]; split; intros H;
        first [lia | reflexivity].
    - destruct Hcases as [-> Hn]. split; intros H; first [lia | reflexivity]. }
  split; [|split].
  - intros Hread Hn.
    unfold AQI.
    rewrite bind_read, Hread.
    cbn [buffer bytesRead].
    destruct (filled_buffer_1 data) as [b0 Hbuf].
    rewrite Hbuf.
    unfold lift.
    pose proof (readIntLE_one_byte b0 n) as Hcases.
    destruct (readIntLE [b0] 0 n) as [v|e].
    + destruct Hcases as [Hone _]. lia.
    + destruct Hcases as [-> _]. reflexivity.
  - intros Hread.
    unfold ECO2.
    rewrite bind_read, Hread.
    cbn [buffer bytesRead].
    change (Z.to_nat 2) with 2%nat.
    assert (Hbuf : exists b1, firstn 2 (data ++ Buffer_alloc 2)
                              = [nth 0 data x00; b1]).
    { destruct data as [|d0 [|d1 rest]]; eexists; reflexivity. }
    destruct Hbuf as [b1 ->].
    unfold lift.
    destruct (Htwo (nth 0 data x00) b1) as [Hout Hone].
    split; intros Hn; [rewrite (Hout Hn) | rewrite (Hone Hn)]; reflexivity.
  - intros Hread.
    unfold TVOC.
    rewrite bind_read, Hread.
    cbn [buffer bytesRead].
    change (Z.to_nat 2) with 2%nat.
    assert (Hbuf : exists b1, firstn 2 (data ++ Buffer_alloc 2)
                              = [nth 0 data x00; b1]).
    { destruct data as [|d0 [|d1 rest]]; eexists; reflexivity. }
    destruct Hbuf as [b1 ->].
    unfold lift.
    destruct (Htwo (nth 0 data x00) b1) as [Hout Hone].
    split; intros Hn; [rewrite (Hout Hn) | rewrite (Hone Hn)]; reflexivity.
Qed.

(** ** status on every byte *)



(** ** Compensation setters outside the four-digit range *)

Lemma hex_digits_count (k : Z) (digits : Z) :
  0 < k -> 16 ^ (digits - 1) <= k < 16 ^ digits -> 1 <= digits ->
  Z.log2 k / 4 + 1 = digits.
Proof.
  intros Hpos [Hlow Hhigh] Hdigits.
  replace (16 ^ (digits - 1)) with (2 ^ (4 * (digits - 1))) in Hlow
    by (rewrite Z.pow_mul_r by lia; reflexivity).
  replace (16 ^ digits) with (2 ^ (4 * digits)) in Hhigh
    by (rewrite Z.pow_mul_r by lia; reflexivity).
  apply Z.log2_le_pow2 in Hlow; [|exact Hpos].
  apply Z.log2_lt_pow2 in Hhigh; [|exact Hpos].
  assert (Hq : Z.log2 k / 4 = digits - 1).
  { symmetry.
    apply Z.div_unique with (r := Z.log2 k - 4 * (digits - 1)); lia. }
  lia.
Qed.

Lemma hex_round_trip_short (k : Z) :
  0 <= k < 0x1000 ->
  Buffer_from_hex (Number_toString16 (IInt k)) = short_hex_bytes k.
Proof.
  intros Hk.
  unfold Buffer_from_hex, Number_toString16, short_hex_bytes.
  replace (k <? 0) with false by (symmetry; apply Z.ltb_ge; lia).
  rewrite list_ascii_of_string_of_list_ascii.
  unfold hex_digits.
  destruct (k <? 16) eqn:H16; [|destruct (k <? 256) eqn:H256].
  - apply Z.ltb_lt in H16.
    assert (Hcount : Z.log2 k / 4 + 1 = 1).
    { destruct (Z.eq_dec k 0) as [->|Hnz]; [reflexivity|].
      apply hex_digits_count; [lia | change (16 ^ (1 - 1)) with 1;
                                      change (16 ^ 1) with 16; lia | lia]. }
    rewrite Hcount.
    reflexivity.
  - apply Z.ltb_ge in H16. apply Z.ltb_lt in H256.
    assert (Hcount : Z.log2 k / 4 + 1 = 2).
    { apply hex_digits_count; [lia | change (16 ^ (2 - 1)) with 16;
                                      change (16 ^ 2) with 256; lia | lia]. }
    rewrite Hcount.
    change (rev (seq 0 (Z.to_nat 2))) with [1%nat; 0%nat].
    cbn [map hex_decode].
    change (16 ^ Z.of_nat 1) with 16.
    change (16 ^ Z.of_nat 0) with 1.
    rewrite Z.div_1_r.
    rewrite !hex_value_hex_digit by (apply Z.mod_pos_bound; lia).
    rewrite (Z.mod_small (k / 16) 16)
      by (split; [apply Z.div_pos; lia | apply Z.div_lt_upper_bound; lia]).
    f_equal. f_equal.
    pose proof (Z.div_mod k 16 ltac:(lia)).
    lia.
  - apply Z.ltb_ge in H16. apply Z.ltb_ge in H256.
    assert (Hcount : Z.log2 k / 4 + 1 = 3).
    { apply hex_digits_count; [lia | change (16 ^ (3 - 1)) with 256;
                                      change (16 ^ 3) with 4096; lia | lia]. }
    rewrite Hcount.
    change (rev (seq 0 (Z.to_nat 3))) with [2%nat; 1%nat; 0%nat].
    cbn [map hex_decode].
    change (16 ^ Z.of_nat 2) with 256.
    change (16 ^ Z.of_nat 1) with 16.
    rewrite !hex_value_hex_digit by (apply Z.mod_pos_bound; lia).
    rewrite (Z.mod_small (k / 256) 16)
      by (split; [apply Z.div_pos; lia | apply Z.div_lt_upper_bound; lia]).
    f_equal. f_equal.
    pose proof (Z.div_mod (k / 16) 16 ltac:(lia)) as E.
    replace (k / 16 / 16) with (k / 256) in E
      by (rewrite Z.div_div by lia; reflexivity).
    lia.
Qed.

Lemma short_hex_bytes_length (k : Z) :
  Buffer_length (short_hex_bytes k) = if k <? 16 then 0 else 1.
Proof.
  unfold short_hex_bytes.
  destruct (k <? 16); [reflexivity|].
  destruct (k <? 256); reflexivity.
Qed.

(** X11.  When the register value (the ceiling the setter computes) is
    below 0x1000, as it is for every humidity below 8, the setters write
    fewer than two bytes: no byte and length 0 for a value below 16, the
    value itself as one byte below 256, and only its two leading
    hexadecimal digits as one byte from 256 on. *)
Theorem short_register_values_lose_bytes
    (bus : Bus) (h : history) (temp_c humidity : number) (k : Z) :
  0 <= k < 0x1000 ->
  (Math_ceil (num_mul (num_add temp_c lit_273_15) (num_of_Z 64)) = IInt k ->
   fst (temperature_compensation bus temp_c h) =
     h ++ [WriteBlock ENS160_I2CADDR ENS160_CMD_TEMPIN
                      (if k <? 16 then 0 else 1) (short_hex_bytes k)]) /\
  (Math_ceil (num_mul humidity (num_of_Z 512)) = IInt k ->
   fst (humidity_compensation bus humidity h) =
     h ++ [WriteBlock ENS160_I2CADDR ENS160_CMD_RHIN
                      (if k <? 16 then 0 else 1) (short_hex_bytes k)]).
Proof.
  intros Rk.
  unfold temperature_compensation, humidity_compensation.
  cbv zeta.
  split; intros Hk; rewrite Hk;
    rewrite hex_round_trip_short by exact Rk;
    rewrite short_hex_bytes_length, bind_write;
    destruct (bus_write bus h _ _ _ _); reflexivity.
Qed.

Lemma short_register_values_lose_bytes_witness :
  fst (temperature_compensation healthy_bus (num_of_Z (-250)) []) =
    [] ++ [WriteBlock ENS160_I2CADDR ENS160_CMD_TEMPIN 1 [x5c]] /\
  fst (humidity_compensation healthy_bus (num_of_Z 5) []) =
    [] ++ [WriteBlock ENS160_I2CADDR ENS160_CMD_RHIN 1 [xa0]].
Proof.
  split.
  - apply (proj1 (short_register_values_lose_bytes healthy_bus []
                    (num_of_Z (-250)) (num_of_Z 5) 1482 ltac:(lia))).
    vm_compute. reflexivity.
  - apply (proj2 (short_register_values_lose_bytes healthy_bus []
                    (num_of_Z (-250)) (num_of_Z 5) 2560 ltac:(lia))).
    vm_compute. reflexivity.
Defined.

Lemma no_leading_digit_no_bytes (k : integral) :
  prints_no_leading_digit k -> Buffer_from_hex (Number_toString16 k) = [].
Proof.
  destruct k as [|[|]|z]; cbn [prints_no_leading_digit]; intros Hk;
    try reflexivity.
  unfold Buffer_from_hex, Number_toString16.
  replace (z <? 0) with true by (symmetry; apply Z.ltb_lt; exact Hk).
  cbn [list_ascii_of_string].
  destruct (list_ascii_of_string _); reflexivity.
Qed.

(** X12.  When the register value is NaN, infinite or negative (a NaN
    argument, or a temperature below absolute zero), its hexadecimal
    string does not start with a digit and the setters issue a write of
    length 0 with an empty buffer; they still return [true] when the bus
    accepts it. *)
Theorem undigit_register_values_write_nothing
    (bus : Bus) (h : history) (temp_c humidity : number) :
  (prints_no_leading_digit
     (Math_ceil (num_mul (num_add temp_c lit_273_15) (num_of_Z 64))) ->
   temperature_compensation bus temp_c h =
     (h ++ [WriteBlock ENS160_I2CADDR ENS160_CMD_TEMPIN 0 []],
      match bus_write bus h ENS160_I2CADDR ENS160_CMD_TEMPIN 0 [] with
      | Resolved _ => Returned true
      | Rejected msg => Threw (BusError msg)
      end)) /\
  (prints_no_leading_digit (Math_ceil (num_mul humidity (num_of_Z 512))) ->
   humidity_compensation bus humidity h =
     (h ++ [WriteBlock ENS160_I2CADDR ENS160_CMD_RHIN 0 []],
      match bus_write bus h ENS160_I2CADDR ENS160_CMD_RHIN 0 [] with
      | Resolved _ => Returned true
      | Rejected msg => Threw (BusError msg)
      end)).
Proof.
  unfold temperature_compensation, humidity_compensation.
  cbv zeta.
  split; intros Hk;
    rewrite (no_leading_digit_no_bytes _ Hk);
    change (Buffer_length []) with 0;
    rewrite bind_write;
    destruct (bus_write bus h _ _ _ _); reflexivity.
Qed.

Lemma undigit_register_values_write_nothing_witness :
  temperature_compensation healthy_bus S754_nan [] =
    ([] ++ [WriteBlock ENS160_I2CADDR ENS160_CMD_TEMPIN 0 []], Returned true) /\
  humidity_compensation healthy_bus (num_of_Z (-1)) [] =
    ([] ++ [WriteBlock ENS160_I2CADDR ENS160_CMD_RHIN 0 []], Returned true).
Proof.
  destruct (undigit_register_values_write_nothing healthy_bus []
              S754_nan (num_of_Z (-1))) as [Ht Hh].
  split.
  - apply Ht. exact I.
  - apply Hh. vm_compute. reflexivity.
Defined.

(** ** Compensation read-back *)

Lemma number_same_eq (x y : number) : number_same x y = true -> x = y.
Proof.
  destruct x as [a|a| |s m e], y as [b|b| |s' m' e'];
    cbn [number_same]; intros H; try discriminate H.
  - apply Bool.eqb_prop in H. subst. reflexivity.
  - apply Bool.eqb_prop in H. subst. reflexivity.
  - reflexivity.
  - rewrite !andb_true_iff in H.
    destruct H as [[Hs Hm] He].
    apply Bool.eqb_prop in Hs.
    apply Pos.eqb_eq in Hm.
    apply Z.eqb_eq in He.
    subst. reflexivity.
Qed.

Lemma forall_from_spec (P : Z -> bool) (count : nat) :
  forall start : Z,
    forall_from start count P = true ->
    forall z : Z, start <= z < start + Z.of_nat count -> P z = true.
Proof.
  induction count as [|count IH]; intros start Hall z Hz.
  - cbn in Hz. lia.
  - cbn [forall_from] in Hall.
    apply andb_true_iff in Hall.
    destruct Hall as [Hhere Hrest].
    destruct (Z.eq_dec z start) as [->|Hne]; [exact Hhere|].
    apply (IH (start + 1) Hrest).
    lia.
Qed.

Lemma big_endian_16_value (k : Z) :
  0 <= k <= 0xFFFF ->
  256 * Buffer_get (big_endian_16 k) 0 + Buffer_get (big_endian_16 k) 1 = k.
Proof.
  intros Hk.
  unfold Buffer_get, big_endian_16.
  cbn [nth].
  rewrite !byte_to_of_Z.
  - pose proof (Z.div_mod k 256 ltac:(lia)). lia.
  - apply Z.mod_pos_bound. lia.
  - split; [apply Z.div_pos; lia | apply Z.div_lt_upper_bound; lia].
Qed.

Lemma readUInt16BE_filled (data : list byte) :
  readUInt16BE (Buffer_from_buffer (firstn (Z.to_nat 2) (data ++ Buffer_alloc 2))) 0
  = Returned (256 * byte_to_Z (nth 0 data x00) + byte_to_Z (nth 1 data x00)).
Proof.
  destruct data as [|d0 [|d1 rest]]; reflexivity.
Qed.

Lemma get_temperature_compensation_run (bus : Bus) (h : history) :
  get_temperature_compensation bus h =
    (h ++ [ReadBlock ENS160_I2CADDR ENS160_CMD_T 2],
     match bus_read bus h ENS160_I2CADDR ENS160_CMD_T 2 with
     | Resolved (_, data) =>
         Returned (decode_temperature
                     (256 * byte_to_Z (nth 0 data x00)
                      + byte_to_Z (nth 1 data x00)))
     | Rejected msg => Threw (BusError msg)
     end).
Proof.
  unfold get_temperature_compensation.
  rewrite bind_read.
  destruct (bus_read bus h _ _ _) as [[n data]|msg]; [|reflexivity].
  cbn [buffer].
  unfold bind, lift, ret.
  rewrite readUInt16BE_filled.
  reflexivity.
Qed.

Lemma get_humidity_compensation_run (bus : Bus) (h : history) :
  get_humidity_compensation bus h =
    (h ++ [ReadBlock ENS160_I2CADDR ENS160_CMD_RH 2],
     match bus_read bus h ENS160_I2CADDR ENS160_CMD_RH 2 with
     | Resolved (_, data) =>
         Returned (decode_humidity
                     (256 * byte_to_Z (nth 0 data x00)
                      + byte_to_Z (nth 1 data x00)))
     | Rejected msg => Threw (BusError msg)
     end).
Proof.
  unfold get_humidity_compensation.
  rewrite bind_read.
  destruct (bus_read bus h _ _ _) as [[n data]|msg]; [|reflexivity].
  cbn [buffer].
  unfold bind, lift, ret.
  rewrite readUInt16BE_filled.
  reflexivity.
Qed.

(** X13.  Each getter issues one read of two bytes from its read-back
    register and no write, and fails only when the bus rejects the read.
    It decodes the first two delivered bytes, high byte first, whatever
    length the transport reports; bytes that were not delivered count as
    zero, so an empty reply reads as -273.1 degrees and as 0 percent. *)
Theorem getters_decode_two_bytes_high_first (bus : Bus) (h : history) :
  get_temperature_compensation bus h =
    (h ++ [ReadBlock ENS160_I2CADDR ENS160_CMD_T 2],
     match bus_read bus h ENS160_I2CADDR ENS160_CMD_T 2 with
     | Resolved (_, data) =>
         Returned (decode_temperature
                     (256 * byte_to_Z (nth 0 data x00)
                      + byte_to_Z (nth 1 data x00)))
     | Rejected msg => Threw (BusError msg)
     end) /\
  get_humidity_compensation bus h =
    (h ++ [ReadBlock ENS160_I2CADDR ENS160_CMD_RH 2],
     match bus_read bus h ENS160_I2CADDR ENS160_CMD_RH 2 with
     | Resolved (_, data) =>
         Returned (decode_humidity
                     (256 * byte_to_Z (nth 0 data x00)
                      + byte_to_Z (nth 1 data x00)))
     | Rejected msg => Threw (BusError msg)
     end) /\
  decode_temperature (256 * byte_to_Z (nth 0 [] x00) + byte_to_Z (nth 1 [] x00))
    = num_of_tenths (-2731) /\
  decode_humidity (256 * byte_to_Z (nth 0 [] x00) + byte_to_Z (nth 1 [] x00))
    = S754_zero false.
Proof.
  split; [apply get_temperature_compensation_run|].
  split; [apply get_humidity_compensation_run|].
  split; vm_compute; reflexivity.
Qed.

Lemma temperature_setter_history
    (bus : Bus) (h : history) (temp_c : number) (k : Z) :
  Math_ceil (num_mul (num_add temp_c lit_273_15) (num_of_Z 64)) = IInt k ->
  0x1000 <= k <= 0xFFFF ->
  fst (temperature_compensation bus temp_c h) =
    h ++ [WriteBlock ENS160_I2CADDR ENS160_CMD_TEMPIN 2 (big_endian_16 k)].
Proof.
  intros Hk Rk.
  unfold temperature_compensation.
  cbv zeta.
  rewrite Hk, hex_round_trip_four_digits by exact Rk.
  rewrite big_endian_16_length, bind_write.
  destruct (bus_write bus h _ _ _ _); reflexivity.
Qed.

Lemma humidity_setter_history
    (bus : Bus) (h : history) (humidity : number) (k : Z) :
  Math_ceil (num_mul humidity (num_of_Z 512)) = IInt k ->
  0x1000 <= k <= 0xFFFF ->
  fst (humidity_compensation bus humidity h) =
    h ++ [WriteBlock ENS160_I2CADDR ENS160_CMD_RHIN 2 (big_endian_16 k)].
Proof.
  intros Hk Rk.
  unfold humidity_compensation.
  cbv zeta.
  rewrite Hk, hex_round_trip_four_digits by exact Rk.
  rewrite big_endian_16_length, bind_write.
  destruct (bus_write bus h _ _ _ _); reflexivity.
Qed.

Lemma setter_event_data (h : history) (addr cmd len len' : Z) (buf data : Buffer) :
  h ++ [WriteBlock addr cmd len buf] = h ++ [WriteBlock addr cmd len' data] ->
  buf = data.
Proof.
  intros H.
  apply app_inv_head in H.
  injection H as _ H.
  exact H.
Qed.

Lemma humidity_round_trip_checked :
  forall_from 80 921 humidity_round_trip_check = true.
Proof. vm_compute. reflexivity. Qed.

Lemma temperature_round_trip_checked :
  forall_from (-400) 1251 temperature_round_trip_check = true.
Proof. vm_compute. reflexivity. Qed.

Lemma decodes_back_spec (decode : Z -> number) (register : integral)
    (expected : number) :
  decodes_back decode register expected = true ->
  exists k : Z,
    register = IInt k /\ 0x1000 <= k <= 0xFFFF /\ decode k = expected.
Proof.
  destruct register as [| |k]; cbn [decodes_back]; intros H;
    try discriminate H.
  rewrite !andb_true_iff, !Z.leb_le in H.
  destruct H as [[Hlow Hhigh] Hsame].
  exists k.
  split; [reflexivity|].
  split; [lia|].
  apply number_same_eq. exact Hsame.
Qed.

(** X14.  Humidity round trip.  For every humidity with one decimal from
    8.0 to 100.0, when the read-back register delivers the two bytes that
    [humidity_compensation] wrote, [get_humidity_compensation] returns the
    humidity that was set, as the same number. *)
Theorem humidity_read_back_returns_what_was_set
    (bus : Bus) (h h' : history) (tenths n : Z) (data : Buffer) :
  80 <= tenths <= 1000 ->
  fst (humidity_compensation bus (num_of_tenths tenths) h) =
    h ++ [WriteBlock ENS160_I2CADDR ENS160_CMD_RHIN 2 data] ->
  bus_read bus h' ENS160_I2CADDR ENS160_CMD_RH 2 = Resolved (n, data) ->
  get_humidity_compensation bus h' =
    (h' ++ [ReadBlock ENS160_I2CADDR ENS160_CMD_RH 2],
     Returned (num_of_tenths tenths)).
Proof.
  intros Htenths Hset Hread.
  pose proof (forall_from_spec _ _ _ humidity_round_trip_checked tenths
                ltac:(lia)) as Hcheck.
  apply decodes_back_spec in Hcheck.
  destruct Hcheck as [k [Hk [Rk Hdecode]]].
  rewrite (humidity_setter_history bus h _ k Hk Rk) in Hset.
  apply setter_event_data in Hset.
  subst data.
  rewrite get_humidity_compensation_run, Hread.
  change (256 * byte_to_Z (nth 0 (big_endian_16 k) x00)
          + byte_to_Z (nth 1 (big_endian_16 k) x00))
    with (256 * Buffer_get (big_endian_16 k) 0 + Buffer_get (big_endian_16 k) 1).
  rewrite big_endian_16_value by lia.
  rewrite Hdecode.
  reflexivity.
Qed.

Lemma humidity_read_back_returns_what_was_set_witness :
  get_humidity_compensation (delivering_bus [x64; x00]) [] =
    ([] ++ [ReadBlock ENS160_I2CADDR ENS160_CMD_RH 2],
     Returned (num_of_tenths 500)).
Proof.
  apply (humidity_read_back_returns_what_was_set _ [] [] 500 2 [x64; x00]).
  - lia.
  - vm_compute. reflexivity.
  - reflexivity.
Defined.

(** X15.  Temperature round trip.  For every temperature with one decimal
    from -40.0 to 85.0, when the read-back register delivers the two
    bytes that [temperature_compensation] wrote,
    [get_temperature_compensation] returns the temperature that was set,
    as the same number. *)
Theorem temperature_read_back_returns_what_was_set
    (bus : Bus) (h h' : history) (tenths n : Z) (data : Buffer) :
  -400 <= tenths <= 850 ->
  fst (temperature_compensation bus (num_of_tenths tenths) h) =
    h ++ [WriteBlock ENS160_I2CADDR ENS160_CMD_TEMPIN 2 data] ->
  bus_read bus h' ENS160_I2CADDR ENS160_CMD_T 2 = Resolved (n, data) ->
  get_temperature_compensation bus h' =
    (h' ++ [ReadBlock ENS160_I2CADDR ENS160_CMD_T 2],
     Returned (num_of_tenths tenths)).
Proof.
  intros Htenths Hset Hread.
  pose proof (forall_from_spec _ _ _ temperature_round_trip_checked tenths
                ltac:(lia)) as Hcheck.
  apply decodes_back_spec in Hcheck.
  destruct Hcheck as [k [Hk [Rk Hdecode]]].
  rewrite (temperature_setter_history bus h _ k Hk Rk) in Hset.
  apply setter_event_data in Hset.
  subst data.
  rewrite get_temperature_compensation_run, Hread.
  change (256 * byte_to_Z (nth 0 (big_endian_16 k) x00)
          + byte_to_Z (nth 1 (big_endian_16 k) x00))
    with (256 * Buffer_get (big_endian_16 k) 0 + Buffer_get (big_endian_16 k) 1).
  rewrite big_endian_16_value by lia.
  rewrite Hdecode.
  reflexivity.
Qed.

Lemma temperature_read_back_returns_what_was_set_witness :
  get_temperature_compensation (delivering_bus [x4a; xaa]) [] =
    ([] ++ [ReadBlock ENS160_I2CADDR ENS160_CMD_T 2],
     Returned (num_of_tenths 255)).
Proof.
  apply (temperature_read_back_returns_what_was_set _ [] [] 255 2 [x4a; xaa]).
  - lia.
  - vm_compute. reflexivity.
  - reflexivity.
Defined.

(** ** Read-back in the compiled build *)

Lemma readIntBE_filled (k : Z) :
  0 <= k <= 0xFFFF ->
  readIntBE (firstn (Z.to_nat 2) (big_endian_16 k ++ Buffer_alloc 2)) 0 2
  = Returned (signed_16 k).
Proof.
  intros Hk.
  pose proof (big_endian_16_value k Hk) as Hvalue.
  unfold Buffer_get, big_endian_16 in Hvalue.
  cbn [nth] in Hvalue.
  unfold big_endian_16, readIntBE, signed_16.
  change (firstn (Z.to_nat 2)
            ([byte_of_Z (k / 256); byte_of_Z (k mod 256)] ++ Buffer_alloc 2))
    with [byte_of_Z (k / 256); byte_of_Z (k mod 256)].
  change ((1 <=? 2) && (2 <=? 6) && (0 <=? 0)
          && (0 + 2 <=? Buffer_length
                          [byte_of_Z (k / 256); byte_of_Z (k mod 256)]))
    with true.
  cbv iota zeta.
  change (rev (firstn (Z.to_nat 2)
                 (skipn (Z.to_nat 0)
                    [byte_of_Z (k / 256); byte_of_Z (k mod 256)])))
    with [byte_of_Z (k mod 256); byte_of_Z (k / 256)].
  cbn [le_unsigned].
  replace (byte_to_Z (byte_of_Z (k mod 256))
           + 256 * (byte_to_Z (byte_of_Z (k / 256)) + 256 * 0))
    with k by lia.
  reflexivity.
Qed.

Lemma compiled_humidity_checked :
  forall_from 8 93 compiled_humidity_check = true.
Proof. vm_compute. reflexivity. Qed.

Lemma compiled_temperature_checked :
  forall_from (-40) 126 compiled_temperature_check = true.
Proof. vm_compute. reflexivity. Qed.

(** X16.  In the compiled build the humidity read-back is a signed
    read: when the read-back register delivers the two bytes that
    [humidity_compensation] wrote for a whole percentage from 8 to 100,
    the getter returns that percentage up to 63, and the percentage
    minus 128 from 64 on. *)
Theorem compiled_humidity_read_back_wraps_at_64
    (bus : Bus) (h h' : history) (percent : Z) (data : Buffer) :
  8 <= percent <= 100 ->
  fst (humidity_compensation bus (num_of_Z percent) h) =
    h ++ [WriteBlock ENS160_I2CADDR ENS160_CMD_RHIN 2 data] ->
  bus_read bus h' ENS160_I2CADDR ENS160_CMD_RH 2 = Resolved (2, data) ->
  CompiledReadback.get_humidity_compensation bus h' =
    (h' ++ [ReadBlock ENS160_I2CADDR ENS160_CMD_RH 2],
     Returned (num_of_Z (if percent <? 64 then percent else percent - 128))).
Proof.
  intros Hpercent Hset Hread.
  destruct (integer_humidity_register percent Hpercent) as [Hk Rk].
  rewrite (humidity_setter_history bus h _ _ Hk Rk) in Hset.
  apply setter_event_data in Hset.
  subst data.
  pose proof (forall_from_spec _ _ _ compiled_humidity_checked percent
                ltac:(lia)) as Hcheck.
  apply number_same_eq in Hcheck.
  unfold CompiledReadback.get_humidity_compensation.
  rewrite bind_read, Hread.
  cbn [buffer bytesRead].
  unfold bind, lift, ret.
  rewrite readIntBE_filled by lia.
  fold (compiled_decode_humidity (signed_16 (512 * percent))).
  rewrite Hcheck.
  reflexivity.
Qed.

Lemma compiled_humidity_read_back_wraps_at_64_witness :
  CompiledReadback.get_humidity_compensation (delivering_bus [xc8; x00]) [] =
    ([] ++ [ReadBlock ENS160_I2CADDR ENS160_CMD_RH 2],
     Returned (num_of_Z (if 100 <? 64 then 100 else 100 - 128))).
Proof.
  apply (compiled_humidity_read_back_wraps_at_64 _ [] [] 100 [xc8; x00]).
  - lia.
  - vm_compute. reflexivity.
  - reflexivity.
Defined.

Lemma compiled_temperature_setter_history
    (bus : Bus) (h : history) (temp_c : number) (k : Z) :
  Math_ceil (num_mul (num_add temp_c lit_273_15) (num_of_Z 64)) = IInt k ->
  0x1000 <= k <= 0xFFFF ->
  fst (Compiled.temperature_compensation bus temp_c h) =
    h ++ [WriteBlock ENS160_I2CADDR ENS160_CMD_TEMPIN 2 (big_endian_16 k)].
Proof.
  intros Hk Rk.
  unfold Compiled.temperature_compensation.
  cbv zeta.
  rewrite Hk, hex_round_trip_four_digits by exact Rk.
  rewrite bind_write.
  destruct (bus_write bus h _ _ _ _); reflexivity.
Qed.

(** X17.  In the compiled build, for every whole temperature from -40 to
    85, when the read-back register delivers the two bytes that
    [temperature_compensation] wrote, the getter returns the temperature
    that was set. *)
Theorem compiled_temperature_read_back_returns_whole_degrees
    (bus : Bus) (h h' : history) (degrees : Z) (data : Buffer) :
  -40 <= degrees <= 85 ->
  fst (Compiled.temperature_compensation bus (num_of_Z degrees) h) =
    h ++ [WriteBlock ENS160_I2CADDR ENS160_CMD_TEMPIN 2 data] ->
  bus_read bus h' ENS160_I2CADDR ENS160_CMD_T 2 = Resolved (2, data) ->
  CompiledReadback.get_temperature_compensation bus h' =
    (h' ++ [ReadBlock ENS160_I2CADDR ENS160_CMD_T 2],
     Returned (num_of_Z degrees)).
Proof.
  intros Hdegrees Hset Hread.
  destruct (integer_temperature_register degrees ltac:(lia)) as [Hk Rk].
  rewrite (compiled_temperature_setter_history bus h _ _ Hk Rk) in Hset.
  apply setter_event_data in Hset.
  subst data.
  pose proof (forall_from_spec _ _ _ compiled_temperature_checked degrees
                ltac:(lia)) as Hcheck.
  apply number_same_eq in Hcheck.
  unfold CompiledReadback.get_temperature_compensation.
  rewrite bind_read, Hread.
  cbn [buffer bytesRead].
  unfold bind, lift, ret.
  rewrite readIntBE_filled by lia.
  fold (compiled_decode_temperature (signed_16 (64 * degrees + 17482))).
  rewrite Hcheck.
  reflexivity.
Qed.

Lemma compiled_temperature_read_back_returns_whole_degrees_witness :
  CompiledReadback.get_temperature_compensation (delivering_bus [x4a; x8a]) [] =
    ([] ++ [ReadBlock ENS160_I2CADDR ENS160_CMD_T 2], Returned (num_of_Z 25)).
Proof.
  apply (compiled_temperature_read_back_returns_whole_degrees
           _ [] [] 25 [x4a; x8a]).
  - lia.
  - vm_compute. reflexivity.
  - reflexivity.
Defined.

Lemma measurements_follow_reported_length_witness :
  AQI empty_read_bus [] =
    ([] ++ [ReadBlock ENS160_I2CADDR ENS160_CMD_AQI 1], Threw RangeError) /\
  ECO2 empty_read_bus [] =
    ([] ++ [ReadBlock ENS160_I2CADDR ENS160_CMD_ECO2 2], Threw RangeError) /\
  TVOC {| bus_write := fun _ _ _ _ _ => Resolved tt;
          bus_read := fun _ _ _ _ => Resolved (1, [xff; x01]) |} [] =
    ([] ++ [ReadBlock ENS160_I2CADDR ENS160_CMD_TVOC 2], Returned (-1)).
Proof.
  split; [|split].
  - apply (proj1 (measurements_follow_reported_length empty_read_bus [] 0 []));
      [reflexivity | lia].
  - apply (proj1 (proj2 (measurements_follow_reported_length
                           empty_read_bus [] 0 [])));
      [reflexivity | lia].
  - apply (proj2 (proj2 (measurements_follow_reported_length
                           {| bus_write := fun _ _ _ _ _ => Resolved tt;
                              bus_read := fun _ _ _ _ =>
                                            Resolved (1, [xff; x01]) |}
                           [] 1 [xff; x01])));
      reflexivity.
Defined.

Lemma readIntBE_outside_buffer (b0 b1 : byte) (n : Z) :
  n < 1 \/ 2 < n -> readIntBE [b0; b1] 0 n = Threw RangeError.
Proof.
  intros Hn.
  unfold readIntBE.
  change (Buffer_length [b0; b1]) with 2.
  replace ((1 <=? n) && (n <=? 6) && (0 <=? 0) && (0 + n <=? 2)) with false;
    [reflexivity|].
  symmetry.
  rewrite !andb_false_iff, !Z.leb_gt.
  lia.
Qed.

(** X18.  The getters of the compiled build decode as many bytes as the
    transport reports: when it reports none, or more than the two asked
    for, they throw the range error of the buffer read, where the getters
    of ENS160.ts return a value. *)
Theorem compiled_getters_follow_reported_length
    (bus : Bus) (h : history) (n : Z) (data : list byte) :
  n < 1 \/ 2 < n ->
  (bus_read bus h ENS160_I2CADDR ENS160_CMD_T 2 = Resolved (n, data) ->
   CompiledReadback.get_temperature_compensation bus h =
     (h ++ [ReadBlock ENS160_I2CADDR ENS160_CMD_T 2], Threw RangeError) /\
   exists v : number,
     get_temperature_compensation bus h =
       (h ++ [ReadBlock ENS160_I2CADDR ENS160_CMD_T 2], Returned v)) /\
  (bus_read bus h ENS160_I2CADDR ENS160_CMD_RH 2 = Resolved (n, data) ->
   CompiledReadback.get_humidity_compensation bus h =
     (h ++ [ReadBlock ENS160_I2CADDR ENS160_CMD_RH 2], Threw RangeError) /\
   exists v : number,
     get_humidity_compensation bus h =
       (h ++ [ReadBlock ENS160_I2CADDR ENS160_CMD_RH 2], Returned v)).
Proof.
  intros Hn.
  split; intros Hread; split.
  - unfold CompiledReadback.get_temperature_compensation.
    rewrite bind_read, Hread.
    cbn [buffer bytesRead].
    change (Z.to_nat 2) with 2%nat.
    destruct (filled_buffer_2 data) as [b0 [b1 ->]].
    unfold bind, lift.
    rewrite (readIntBE_outside_buffer b0 b1 n Hn).
    reflexivity.
  - rewrite get_temperature_compensation_run, Hread.
    eexists. reflexivity.
  - unfold CompiledReadback.get_humidity_compensation.
    rewrite bind_read, Hread.
    cbn [buffer bytesRead].
    change (Z.to_nat 2) with 2%nat.
    destruct (filled_buffer_2 data) as [b0 [b1 ->]].
    unfold bind, lift.
    rewrite (readIntBE_outside_buffer b0 b1 n Hn).
    reflexivity.
  - rewrite get_humidity_compensation_run, Hread.
    eexists. reflexivity.
Qed.

Lemma compiled_getters_follow_reported_length_witness :
  CompiledReadback.get_temperature_compensation empty_read_bus [] =
    ([] ++ [ReadBlock ENS160_I2CADDR ENS160_CMD_T 2], Threw RangeError) /\
  CompiledReadback.get_humidity_compensation empty_read_bus [] =
    ([] ++ [ReadBlock ENS160_I2CADDR ENS160_CMD_RH 2], Threw RangeError).
Proof.
  destruct (compiled_getters_follow_reported_length empty_read_bus [] 0 []
              ltac:(lia)) as [Ht Hh].
  split.
  - apply Ht. reflexivity.
  - apply Hh. reflexivity.
Defined.

(** ** The register values are the exact ceilings *)

Lemma temperature_register_checked :
  forall_from (-400) 1251 temperature_register_check = true.
Proof. vm_compute. reflexivity. Qed.

Lemma humidity_register_checked :
  forall_from 80 921 humidity_register_check = true.
Proof. vm_compute. reflexivity. Qed.

(** X19.  For every temperature with one decimal from -40.0 to 85.0 and
    every humidity with one decimal from 8.0 to 100.0, the value the
    setter computes in double precision is the ceiling of
    (t + 273.15) * 64, respectively of h * 512, in exact arithmetic, and
    the setter writes its two bytes, high byte first: the rounding of the
    double operations never moves the register value. *)
Theorem setters_write_the_exact_ceiling
    (bus : Bus) (h : history) (tenths : Z) :
  (-400 <= tenths <= 850 ->
   fst (temperature_compensation bus (num_of_tenths tenths) h) =
     h ++ [WriteBlock ENS160_I2CADDR ENS160_CMD_TEMPIN 2
             (big_endian_16 (exact_temperature_register tenths))]) /\
  (80 <= tenths <= 1000 ->
   fst (humidity_compensation bus (num_of_tenths tenths) h) =
     h ++ [WriteBlock ENS160_I2CADDR ENS160_CMD_RHIN 2
             (big_endian_16 (exact_humidity_register tenths))]).
Proof.
  split; intros Htenths.
  - pose proof (forall_from_spec _ _ _ temperature_register_checked tenths
                  ltac:(lia)) as Hcheck.
    unfold temperature_register_check in Hcheck.
    destruct (Math_ceil _) as [| |k] eqn:Hk; try discriminate Hcheck.
    rewrite !andb_true_iff, !Z.leb_le, Z.eqb_eq in Hcheck.
    destruct Hcheck as [[Hexact Hlow] Hhigh].
    rewrite <- Hexact.
    apply temperature_setter_history; [exact Hk | lia].
  - pose proof (forall_from_spec _ _ _ humidity_register_checked tenths
                  ltac:(lia)) as Hcheck.
    unfold humidity_register_check in Hcheck.
    destruct (Math_ceil _) as [| |k] eqn:Hk; try discriminate Hcheck.
    rewrite !andb_true_iff, !Z.leb_le, Z.eqb_eq in Hcheck.
    destruct Hcheck as [[Hexact Hlow] Hhigh].
    rewrite <- Hexact.
    apply humidity_setter_history; [exact Hk | lia].
Qed.

Lemma setters_write_the_exact_ceiling_witness :
  fst (temperature_compensation healthy_bus (num_of_tenths 255) []) =
    [] ++ [WriteBlock ENS160_I2CADDR ENS160_CMD_TEMPIN 2
             (big_endian_16 (exact_temperature_register 255))] /\
  fst (humidity_compensation healthy_bus (num_of_tenths 255) []) =
    [] ++ [WriteBlock ENS160_I2CADDR ENS160_CMD_RHIN 2
             (big_endian_16 (exact_humidity_register 255))].
Proof.
  destruct (setters_write_the_exact_ceiling healthy_bus [] 255) as [Ht Hh].
  split; [apply Ht | apply Hh]; lia.
Defined.
